(** * ms_deisotope: scan data structures ([ms_deisotope/data_source/scan/base.py])

    A shallow embedding of the raw signal arrays, the precursor information
    record with its monoisotopic peak resolution, and the TIC / base peak
    facades, followed by the properties established about them.

    Conventions of the embedding:
    - Python floats are modelled by exact rationals ([Q]); numeric equality
      is [Qeq], and the comparisons of the source are the boolean
      comparisons below. The averages of the envelope statistics round
      their sums and quotients: there the float addition and division are
      two operations left open.
    - A Python call that may raise is a value of [result]; the exception
      classes that occur in the modelled code are the constructors of [exn].
    - A [while] loop whose termination is not structural takes a fuel
      argument and answers [None] when the fuel runs out.
    - Objects mutated in place ([self]) are passed in and returned; of a
      call that raises, the exception is what the model keeps. *)

From Stdlib Require Import QArith Qabs Lqa Lia Bool.
From stdpp Require Import base option list gmap strings.

Local Open Scope Q_scope.

(** ** Python results *)

Inductive exn : Type :=
| AttributeError
| TypeError
| ValueError
| IndexError
| KeyError
| ZeroDivisionError.

Inductive result (A : Type) : Type :=
| Ok (a : A)
| Raise (e : exn).

Arguments Ok {A} a.
Arguments Raise {A} e.

Definition bind {A B : Type} (r : result A) (k : A -> result B) : result B :=
  match r with
  | Ok a => k a
  | Raise e => Raise e
  end.

Notation "'let*' x ':=' r 'in' k" := (bind r (fun x => k))
  (at level 10, x name, r at level 100, k at level 200).

(** ** Numbers *)

Definition Qltb (x y : Q) : bool := negb (Qle_bool y x).
Definition Qleb (x y : Q) : bool := Qle_bool x y.
Definition Qeqb (x y : Q) : bool := Qeq_bool x y.

(** [numpy.isclose(a, b)] with its default tolerances
    [rtol = 1e-05], [atol = 1e-08]: [|a - b| <= atol + rtol * |b|]. *)
Definition rtol : Q := 1 # 100000.
Definition atol : Q := 1 # 100000000.

Definition isclose (a b : Q) : bool :=
  Qleb (Qabs (a - b)) (atol + rtol * Qabs b).

(** One-dimensional [numpy] broadcasting of a binary operation: equal
    lengths combine pointwise, a length-one operand is stretched, anything
    else is the [ValueError] "operands could not be broadcast together". *)
Fixpoint zip_with_same {A B C : Type} (f : A -> B -> C) (xs : list A) (ys : list B)
  : list C :=
  match xs, ys with
  | x :: xs', y :: ys' => f x y :: zip_with_same f xs' ys'
  | _, _ => []
  end.

Definition broadcast {A : Type} (f : Q -> Q -> A) (xs ys : list Q) : result (list A) :=
  if Nat.eqb (length xs) (length ys) then Ok (zip_with_same f xs ys)
  else match xs, ys with
       | [x], _ => Ok (map (f x) ys)
       | _, [y] => Ok (map (fun x => f x y) xs)
       | _, _ => Raise ValueError
       end.

(** [numpy.allclose(a, b)]: [all(isclose(a, b))] after broadcasting. *)
Definition allclose (xs ys : list Q) : result bool :=
  let* cs := broadcast isclose xs ys in
  Ok (forallb (fun c : bool => c) cs).

(** [a + b] on two one-dimensional arrays. *)
Definition array_add (xs ys : list Q) : result (list Q) :=
  broadcast Qplus xs ys.

(** [a * i] for an array and a scalar. *)
Definition array_scale (xs : list Q) (i : Q) : list Q :=
  map (fun x => x * i) xs.

(** [a[i:j]] for non-negative [i], [j]. *)
Definition slice {A : Type} (i j : nat) (xs : list A) : list A :=
  take (j - i)%nat (drop i xs).

(** [a[i]] for a non-negative index. *)
Definition index {A : Type} (xs : list A) (i : nat) : result A :=
  match xs !! i with
  | Some x => Ok x
  | None => Raise IndexError
  end.

(** ** RawDataArrays *)

Module RawDataArrays.

(** The named tuple [(mz, intensity)] with the [data_arrays] dictionary
    that [__new__] attaches to the instance. *)
Record t : Type := mk {
  mz : list Q;
  intensity : list Q;
  data_arrays : gmap string (list Q)
}.

(** [__new__(cls, mz, intensity, arrays=None)]: the dictionary starts
    empty and is updated from [arrays] when that is given and non-empty. *)
Definition __new__ (mz intensity : list Q) (arrays : option (gmap string (list Q))) : t :=
  let data_arrays := (∅ : gmap string (list Q)) in
  let data_arrays :=
    match arrays with
    | Some a => a ∪ data_arrays
    | None => data_arrays
    end in
  mk mz intensity data_arrays.

Definition __copy__ (self : t) : t :=
  __new__ (mz self) (intensity self) (Some ((fun v => v) <$> data_arrays self)).

Definition copy (self : t) : t := __copy__ self.

(** A value that [__eq__] may be compared against. *)
Inductive operand : Type :=
| PyNone
| PyNumber (x : Q)
| PyArrays (a : t).

(** [other[i]] for [i] in [0, 1]: [None] and plain numbers are not
    subscriptable. *)
Definition getitem (other : operand) (i : nat) : result (list Q) :=
  match other with
  | PyNone => Raise TypeError
  | PyNumber _ => Raise TypeError
  | PyArrays a =>
      match i with
      | O => Ok (mz a)
      | 1%nat => Ok (intensity a)
      | _ => Raise IndexError
      end
  end.

(** [__eq__]: the body of the [try], then the [except ValueError]
    handler; every other exception propagates. *)
Definition __eq__body (self : t) (other : operand) : result bool :=
  let* o0 := getitem other 0 in
  let* c0 := allclose (mz self) o0 in
  if c0 then
    let* o1 := getitem other 1 in
    allclose (intensity self) o1
  else Ok false.

Definition __eq__ (self : t) (other : operand) : result bool :=
  match __eq__body self other with
  | Raise ValueError => Ok false
  | r => r
  end.

Definition __ne__ (self : t) (other : operand) : result bool :=
  let* b := __eq__ self other in Ok (negb b).

Definition __mul__ (self : t) (i : Q) : t :=
  __new__ (mz self) (array_scale (intensity self) i) None.

Section Combine.
(** [ms_peak_picker.average_signal]: resamples the given arrays on a
    common axis and returns the new [(mz, intensity)] pair. *)
Variable average_signal : list t -> list Q * list Q.

Definition __add__ (self other : t) : result t :=
  let* same :=
    if Nat.eqb (length (mz self)) (length (mz other))
    then allclose (mz self) (mz other)
    else Ok false in
  if same then
    let* summed := array_add (intensity self) (intensity other) in
    Ok (__new__ (mz self) summed None)
  else
    let '(m, i) := average_signal [self; other] in
    Ok (__mul__ (__new__ m i None) 2).
End Combine.

(** *** [find_mz] *)

Definition tolerance : Q := 1 # 10.

Section FindMz.
Variable self : t.
Variable q : Q.

(** [self.mz[i]]; every index read by [find_mz] is within bounds. *)
Definition at_ (i : nat) : Q := nth i (mz self) 0.

(** The running [(best_index, best_err)] pair and its update
    [if abs_err < best_err: best_err = abs_err; best_index = i]. *)
Definition update (best : nat * Q) (i : nat) (err : Q) : nat * Q :=
  if Qltb (Qabs err) (snd best) then (i, Qabs err) else best.

(** [while i >= 0: ...; i -= 1], entered at [i]. *)
Fixpoint scan_down (i : nat) (best : nat * Q) : nat * Q :=
  let err := at_ i - q in
  if Qleb err (- tolerance) then best
  else
    let best := update best i err in
    match i with
    | O => best
    | S i' => scan_down i' best
    end.

(** [while i < n: ...; i += 1], entered at [i] with [k = n - i]
    iterations left before the loop condition fails. *)
Fixpoint scan_up (k : nat) (i : nat) (best : nat * Q) : nat * Q :=
  match k with
  | O => best
  | S k' =>
      let err := at_ i - q in
      if Qleb tolerance err then best
      else scan_up k' (S i) (update best i err)
  end.

(** The body of the [if abs(err) < 0.1] branch. *)
Definition refine (mid : nat) : nat :=
  let err := at_ mid - q in
  let best := (mid, Qabs err) in
  let best := scan_down mid best in
  let best := scan_up (length (mz self) - mid) mid best in
  fst best.

(** [while hi != lo: ...] followed by [return 0]. *)
Fixpoint find_mz_loop (fuel : nat) (lo hi : nat) : option nat :=
  match fuel with
  | O => None
  | S fuel' =>
      if negb (Nat.eqb hi lo) then
        let mid := ((hi + lo) / 2)%nat in
        let err := at_ mid - q in
        if Qltb (Qabs err) tolerance then Some (refine mid)
        else if Nat.eqb (hi - lo) 1 then Some mid
        else if Qltb 0 err then find_mz_loop fuel' lo mid
        else find_mz_loop fuel' mid hi
      else Some 0%nat
  end.

Definition find_mz : option nat :=
  let n := length (mz self) in
  find_mz_loop (S n) 0 n.
End FindMz.

(** The window updates of the search, [hi = mid] and [lo = mid], as a
    relation between windows [(lo, hi)]: [narrows self q w w'] when the loop
    entered with the window [w] reaches the window [w'] without meeting a
    midpoint within the tolerance. *)
Inductive narrows (self : t) (q : Q) : nat * nat -> nat * nat -> Prop :=
| narrows_here (w : nat * nat) : narrows self q w w
| narrows_hi (lo hi : nat) (w : nat * nat) :
    hi <> lo ->
    Qltb (Qabs (at_ self ((hi + lo) / 2) - q)) tolerance = false ->
    (hi - lo)%nat <> 1%nat ->
    Qltb 0 (at_ self ((hi + lo) / 2) - q) = true ->
    narrows self q (lo, ((hi + lo) / 2)%nat) w ->
    narrows self q (lo, hi) w
| narrows_lo (lo hi : nat) (w : nat * nat) :
    hi <> lo ->
    Qltb (Qabs (at_ self ((hi + lo) / 2) - q)) tolerance = false ->
    (hi - lo)%nat <> 1%nat ->
    Qltb 0 (at_ self ((hi + lo) / 2) - q) = false ->
    narrows self q (((hi + lo) / 2)%nat, hi) w ->
    narrows self q (lo, hi) w.

(** The m/z axis is in non-decreasing order. *)
Fixpoint is_sorted (xs : list Q) : bool :=
  match xs with
  | x :: (y :: _) as rest => Qleb x y && is_sorted rest
  | _ => true
  end.

(** The point at index [i] lies within the tolerance of the query. *)
Definition within (self : t) (q : Q) (i : nat) : Prop :=
  Qabs (at_ self i - q) < tolerance.

(** The running pair names an index of the array together with its
    distance to the query. *)
Definition tracks (self : t) (q : Q) (best : nat * Q) : Prop :=
  (fst best < length (mz self))%nat
  /\ snd best = Qabs (at_ self (fst best) - q).

(** [between_mz(low, high)]; [None] only if a search ran out of fuel. *)
Definition between_mz (self : t) (low high : Q) : option (result t) :=
  match find_mz self low, find_mz self high with
  | Some i, Some j0 =>
      let j := (j0 + 1)%nat in
      Some (let* y := index (mz self) i in
            let i := if negb (Qleb low y && Qleb y high) then (i + 1)%nat else i in
            Ok (__new__ (slice i j (mz self)) (slice i j (intensity self)) None))
  | _, _ => None
  end.

End RawDataArrays.

(** ** Peaks and scans *)

(** [ChargeNotProvided], or an integer charge. *)
Inductive charge_state : Type :=
| ChargeNotProvided
| ChargeInt (z : Z).

Definition charge_eqb (a b : charge_state) : bool :=
  match a, b with
  | ChargeNotProvided, ChargeNotProvided => true
  | ChargeInt x, ChargeInt y => Z.eqb x y
  | _, _ => false
  end.

Definition DEFAULT_CHARGE_WHEN_NOT_RESOLVED : Z := 1.

(** The attributes of a picked peak that the modelled code reads. *)
Module FittedPeak.
Record t : Type := mk { mz : Q; intensity : Q }.
End FittedPeak.

(** The attributes of a deconvoluted peak that the modelled code reads. *)
Module DeconvolutedPeak.
Record t : Type := mk { neutral_mass : Q; charge : Z; intensity : Q }.
End DeconvolutedPeak.

(** The interface [PeakLike]: anything with an [intensity]. *)
Class PeakLike (P : Type) : Type := peak_intensity : P -> Q.

#[export] Instance FittedPeak_PeakLike : PeakLike FittedPeak.t :=
  FittedPeak.intensity.
#[export] Instance DeconvolutedPeak_PeakLike : PeakLike DeconvolutedPeak.t :=
  DeconvolutedPeak.intensity.

(** The part of a scan that the precursor resolution reads. *)
Module Scan.
Record t : Type := mk {
  id : string;
  peak_set : option (list FittedPeak.t);
  polarity : Z
}.
End Scan.

(** A scan source: [get_scan_by_id] may raise, or answer [None]. *)
Record ScanSource : Type := {
  get_scan_by_id : string -> result (option Scan.t)
}.

(** ** PrecursorInformation *)

Module PrecursorInformation.

(** A value stored in [annotations]. *)
Inductive value : Type :=
| VStr (s : string)
| VNum (x : Q)
| VBool (b : bool).

(** A co-isolated precursor descriptor. *)
Record CoIsolation : Type := {
  co_neutral_mass : Q;
  co_intensity : Q;
  co_charge : Z
}.

Record t : Type := mk {
  mz : Q;
  intensity : Q;
  charge : charge_state;
  precursor_scan_id : option string;
  source : option ScanSource;
  extracted_neutral_mass : Q;
  extracted_charge : charge_state;
  extracted_intensity : Q;
  peak : option FittedPeak.t;
  extracted_peak : option DeconvolutedPeak.t;
  defaulted : bool;
  orphan : bool;
  product_scan_id : option string;
  annotations : gmap string value;
  coisolation : list CoIsolation
}.

(** [__init__]: [int(charge)] leaves both kinds of charge as they are;
    [annotations] and [coisolation] default to the empty dictionary and
    the empty list when absent (or empty). *)
Definition __init__ (mz intensity : Q) (charge : charge_state)
    (precursor_scan_id : option string) (source : option ScanSource)
    (extracted_neutral_mass : Q) (extracted_charge : charge_state)
    (extracted_intensity : Q)
    (peak : option FittedPeak.t) (extracted_peak : option DeconvolutedPeak.t)
    (defaulted orphan : bool) (product_scan_id : option string)
    (annotations : option (gmap string value))
    (coisolation : option (list CoIsolation)) : t :=
  let annotations :=
    match annotations with Some a => a | None => ∅ end in
  let coisolation :=
    match coisolation with Some c => c | None => [] end in
  mk mz intensity charge precursor_scan_id source
     extracted_neutral_mass extracted_charge extracted_intensity
     peak extracted_peak defaulted orphan product_scan_id
     annotations coisolation.

(** *** Pickling *)

(** An entry of the state tuple. *)
Inductive item : Type :=
| INum (x : Q)
| ICharge (c : charge_state)
| IId (i : option string)
| ISource (s : option ScanSource)
| IPeak (p : option FittedPeak.t)
| IFit (p : option DeconvolutedPeak.t)
| IBool (b : bool)
| IAnnotations (a : gmap string value)
| ICoisolation (c : list CoIsolation).

Definition __getstate__ (self : t) : list item :=
  [ INum (mz self); INum (intensity self); ICharge (charge self);
    IId (precursor_scan_id self); ISource None;
    INum (extracted_neutral_mass self); ICharge (extracted_charge self);
    INum (extracted_intensity self); IPeak (peak self);
    IFit (extracted_peak self); IBool (defaulted self); IBool (orphan self);
    IId (product_scan_id self); IAnnotations (annotations self);
    ICoisolation (coisolation self) ].

(** Reading an entry of the state tuple into an attribute.  The
    attributes of the record are typed, so an entry of a kind its
    attribute cannot hold is reported as [TypeError]. *)
Definition as_num (i : item) : result Q :=
  match i with INum x => Ok x | _ => Raise TypeError end.
Definition as_charge (i : item) : result charge_state :=
  match i with ICharge c => Ok c | _ => Raise TypeError end.
Definition as_id (i : item) : result (option string) :=
  match i with IId x => Ok x | _ => Raise TypeError end.
Definition as_source (i : item) : result (option ScanSource) :=
  match i with ISource x => Ok x | _ => Raise TypeError end.
Definition as_peak (i : item) : result (option FittedPeak.t) :=
  match i with IPeak x => Ok x | _ => Raise TypeError end.
Definition as_fit (i : item) : result (option DeconvolutedPeak.t) :=
  match i with IFit x => Ok x | _ => Raise TypeError end.
Definition as_bool (i : item) : result bool :=
  match i with IBool x => Ok x | _ => Raise TypeError end.
Definition as_annotations (i : item) : result (gmap string value) :=
  match i with IAnnotations x => Ok x | _ => Raise TypeError end.
Definition as_coisolation (i : item) : result (list CoIsolation) :=
  match i with ICoisolation x => Ok x | _ => Raise TypeError end.

(** [__setstate__]: the first thirteen entries are unpacked into the
    attributes ([ValueError] when [state[:13]] has fewer); entries 13 and
    14 are read only when present, [coisolation] through [list(...)]. *)
Definition __setstate__ (self : t) (state : list item) : result t :=
  let head := take 13 state in
  if negb (Nat.eqb (length head) 13) then Raise ValueError
  else
    let* mz := bind (index head 0) as_num in
    let* intensity := bind (index head 1) as_num in
    let* charge := bind (index head 2) as_charge in
    let* precursor_scan_id := bind (index head 3) as_id in
    let* source := bind (index head 4) as_source in
    let* extracted_neutral_mass := bind (index head 5) as_num in
    let* extracted_charge := bind (index head 6) as_charge in
    let* extracted_intensity := bind (index head 7) as_num in
    let* peak := bind (index head 8) as_peak in
    let* extracted_peak := bind (index head 9) as_fit in
    let* defaulted := bind (index head 10) as_bool in
    let* orphan := bind (index head 11) as_bool in
    let* product_scan_id := bind (index head 12) as_id in
    let* annotations :=
      if Nat.ltb 13 (length state)
      then bind (index state 13) as_annotations
      else Ok (annotations self) in
    let* coisolation :=
      if Nat.ltb 14 (length state)
      then bind (index state 14) as_coisolation
      else Ok (coisolation self) in
    Ok (mk mz intensity charge precursor_scan_id source
           extracted_neutral_mass extracted_charge extracted_intensity
           peak extracted_peak defaulted orphan product_scan_id
           annotations coisolation).

(** [__reduce__] answers the constructor arguments [(0, 0, 0)] and the
    state; unpickling calls the class on the arguments and then
    [__setstate__] on the new object. *)
Definition __reduce__ (self : t) : (Q * Q * charge_state) * list item :=
  ((0, 0, ChargeInt 0), __getstate__ self).

Definition reconstruct (reduced : (Q * Q * charge_state) * list item) : result t :=
  let '((mz, intensity, charge), state) := reduced in
  let fresh :=
    __init__ mz intensity charge None None 0 (ChargeInt 0) 0 None None
             false false None None None in
  __setstate__ fresh state.

(** Serialising and reading back. *)
Definition dumps (self : t) := __reduce__ self.
Definition loads := reconstruct.

Definition bind_source (self : t) (src : ScanSource) : t :=
  mk (mz self) (intensity self) (charge self) (precursor_scan_id self)
     (Some src)
     (extracted_neutral_mass self) (extracted_charge self)
     (extracted_intensity self) (peak self) (extracted_peak self)
     (defaulted self) (orphan self) (product_scan_id self)
     (annotations self) (coisolation self).

Definition unbind (self : t) : t :=
  mk (mz self) (intensity self) (charge self) (precursor_scan_id self)
     None
     (extracted_neutral_mass self) (extracted_charge self)
     (extracted_intensity self) (peak self) (extracted_peak self)
     (defaulted self) (orphan self) (product_scan_id self)
     (annotations self) (coisolation self).

(** [self.precursor]: an unbound link with a precursor scan id fails on
    [None.get_scan_by_id]. *)
Definition precursor (self : t) : result (option Scan.t) :=
  match precursor_scan_id self with
  | None => Ok None
  | Some scan_id =>
      match source self with
      | None => Raise AttributeError
      | Some src => get_scan_by_id src scan_id
      end
  end.

Section Mass.
(** [ms_deisotope.averagine.neutral_mass], and the value of
    [ms_deisotope.averagine.mass_charge_ratio] at a charge other than 0. *)
Variable neutral_mass_of : Q -> Z -> Q.
Variable mass_charge_ratio : Q -> Z -> Q.

(** Modelled from the spec: the mass conversion collaborator
    [mzFromNeutralMass(mass, charge)] ([ms_deisotope.averagine], which is not
    among the sources) is the ratio of a mass to the size of the charge; at
    charge 0 the division by [abs(charge)] raises [ZeroDivisionError]. *)
Definition call_mass_charge_ratio (mass : Q) (z : Z) : result Q :=
  if Z.eqb z 0 then Raise ZeroDivisionError
  else Ok (mass_charge_ratio mass z).

(** The property [neutral_mass]. *)
Definition neutral_mass (self : t) : Q :=
  match charge self with
  | ChargeNotProvided => neutral_mass_of (mz self) DEFAULT_CHARGE_WHEN_NOT_RESOLVED
  | ChargeInt z => neutral_mass_of (mz self) z
  end.

(** The property [extracted_mz]. *)
Definition extracted_mz (self : t) : result Q :=
  match extracted_charge self with
  | ChargeNotProvided =>
      call_mass_charge_ratio (mz self) DEFAULT_CHARGE_WHEN_NOT_RESOLVED
  | ChargeInt z =>
      if Z.eqb z 0 && charge_eqb (charge self) ChargeNotProvided
      then call_mass_charge_ratio (mz self) DEFAULT_CHARGE_WHEN_NOT_RESOLVED
      else call_mass_charge_ratio (extracted_neutral_mass self) z
  end.

(** [extract(peak, override_charge=None)]. *)
Definition extract (self : t) (fit : DeconvolutedPeak.t)
    (override_charge : option Z) : t :=
  mk (mz self) (intensity self) (charge self) (precursor_scan_id self)
     (source self)
     (DeconvolutedPeak.neutral_mass fit)
     (ChargeInt match override_charge with
                | None => DeconvolutedPeak.charge fit
                | Some c => c
                end)
     (DeconvolutedPeak.intensity fit)
     (peak self) (Some fit)
     (defaulted self) (orphan self) (product_scan_id self)
     (annotations self) (coisolation self).

(** [default(orphan=False)]: both branches set [defaulted]; the
    [orphan] flag is only ever raised. *)
Definition default (self : t) (as_orphan : bool) : t :=
  let '(new_charge, new_mass) :=
    match charge self with
    | ChargeNotProvided =>
        (ChargeNotProvided,
         neutral_mass_of (mz self) DEFAULT_CHARGE_WHEN_NOT_RESOLVED)
    | ChargeInt z => (ChargeInt z, neutral_mass self)
    end in
  mk (mz self) (intensity self) (charge self) (precursor_scan_id self)
     (source self)
     new_mass new_charge (intensity self)
     (peak self) (extracted_peak self)
     true (if as_orphan then true else orphan self)
     (product_scan_id self)
     (annotations self) (coisolation self).

(** [__eq__]: each side picks its own mass and charge from its own
    [extracted_neutral_mass != 0] test; reading [extracted_mz] may raise. *)
Definition __eq__ (self : t) (other : option t) : result bool :=
  match other with
  | None => Ok false
  | Some other =>
      if negb (bool_decide (precursor_scan_id self = precursor_scan_id other))
      then Ok false
      else if negb (bool_decide (product_scan_id self = product_scan_id other))
      then Ok false
      else
        let self_fit := negb (Qeqb (extracted_neutral_mass self) 0) in
        let other_fit := negb (Qeqb (extracted_neutral_mass other) 0) in
        let* self_mass :=
          if self_fit then extracted_mz self else Ok (mz self) in
        let* other_mass :=
          if other_fit then extracted_mz other else Ok (mz other) in
        if negb (isclose self_mass other_mass) then Ok false
        else
          let self_charge :=
            if self_fit then extracted_charge self else charge self in
          let other_charge :=
            if other_fit then extracted_charge other else charge other in
          if negb (charge_eqb self_charge other_charge) then Ok false
          else Ok true
  end.

Definition __ne__ (self : t) (other : option t) : result bool :=
  let* equal := __eq__ self other in Ok (negb equal).

(** *** [find_monoisotopic_peak] *)

(** What the call returns: the bare [False], or the pair
    [(extracted_mz, flag)].  Reading [extracted_mz] for the pair comes after
    [default] or [extract] has updated the record, and may raise. *)
Inductive outcome : Type :=
| ReturnFalse
| ReturnPair (updated_mz : Q) (success : bool).

Section Resolution.
(** The collaborators: [Scan.pick_peaks], [Scan.has_peak],
    [PeakSet.between] (followed by [clone] and [reindex], which do not
    change the peaks), and [deconvolute_peaks] called with the peak
    pool, the priority list, the charge range and the remaining
    keyword arguments. *)
Variable Kwargs : Type.
Variable pick_peaks : Scan.t -> Scan.t.
Variable has_peak : Scan.t -> Q -> Q -> option FittedPeak.t.
Variable between : list FittedPeak.t -> Q -> Q -> list FittedPeak.t.
Variable deconvolute_peaks :
  list FittedPeak.t -> list FittedPeak.t -> Z * Z -> Kwargs ->
  list DeconvolutedPeak.t * list (option DeconvolutedPeak.t).

(** The relative tolerance [2e-5] of the reference peak search. *)
Definition reference_tolerance : Q := 2 # 100000.

(** Lines 848-853: the scan given, else the one looked up. *)
Definition resolve_precursor_scan (self : t) (precursor_scan : option Scan.t)
  : result (option Scan.t) :=
  match precursor_scan with
  | Some scan => Ok (Some scan)
  | None =>
      match precursor_scan_id self with
      | None => Ok None
      | Some _ => precursor self
      end
  end.

(** Lines 854-855: the scan after
    [if precursor_scan.peak_set is None: precursor_scan.pick_peaks()]. *)
Definition picked (scan : Scan.t) : Scan.t :=
  match Scan.peak_set scan with
  | None => pick_peaks scan
  | Some _ => scan
  end.

(** Lines 856-859: the charge range, negated in negative mode. *)
Definition effective_charge_range (scan : Scan.t) (charge_range : option (Z * Z))
  : Z * Z :=
  let charge_range :=
    match charge_range with Some r => r | None => (1, 8)%Z end in
  if Z.ltb (Scan.polarity scan) 0
     && Z.ltb 0 (Z.max (fst charge_range) (snd charge_range))
  then ((fst charge_range * Scan.polarity scan)%Z,
        (snd charge_range * Scan.polarity scan)%Z)
  else charge_range.

Definition find_monoisotopic_peak (self : t) (trust_charge_state : bool)
    (precursor_scan : option Scan.t) (charge_range : option (Z * Z))
    (kwargs : Kwargs) : result (t * outcome) :=
  let* resolved := resolve_precursor_scan self precursor_scan in
  match resolved with
  | None => Ok (self, ReturnFalse)
  | Some precursor_scan =>
      let precursor_scan := picked precursor_scan in
      let charge_range := effective_charge_range precursor_scan charge_range in
      match has_peak precursor_scan (mz self) reference_tolerance with
      | None =>
          let self := default self true in
          let* updated_mz := extracted_mz self in
          Ok (self, ReturnPair updated_mz false)
      | Some ref_peak =>
          let priority_target := [ref_peak] in
          let* peak_set :=
            match Scan.peak_set precursor_scan with
            | None => Raise AttributeError
            | Some ps => Ok ps
            end in
          let peaks := between peak_set (mz self - 3) (mz self + 6) in
          let '(_, priority_results) :=
            deconvolute_peaks peaks priority_target charge_range kwargs in
          let* fit := index priority_results 0 in
          match fit with
          | None =>
              let self := default self true in
              let* updated_mz := extracted_mz self in
              Ok (self, ReturnPair updated_mz false)
          | Some fit =>
              if charge_eqb (charge self) ChargeNotProvided then
                let self := extract self fit None in
                let* updated_mz := extracted_mz self in
                Ok (self, ReturnPair updated_mz true)
              else if trust_charge_state
                      && negb (charge_eqb (charge self)
                                 (ChargeInt (DeconvolutedPeak.charge fit)))
              then
                let self := default self false in
                let* updated_mz := extracted_mz self in
                Ok (self, ReturnPair updated_mz false)
              else
                let self := extract self fit None in
                let* updated_mz := extracted_mz self in
                Ok (self, ReturnPair updated_mz true)
          end
      end
  end.
End Resolution.
End Mass.
End PrecursorInformation.

(** ** TICMethods and BasePeakMethods *)

(** An attribute of a duck-typed object: absent (reading it raises
    [AttributeError]), bound to [None], or bound to a value. *)
Inductive attribute (A : Type) : Type :=
| Missing
| IsNone
| Has (a : A).

Arguments Missing {A}.
Arguments IsNone {A}.
Arguments Has {A} a.

(** An element met when the scan object itself is iterated. *)
Inductive element : Type :=
| EPeak (p : FittedPeak.t)
| ENumber (x : Q)
| EOther.

(** The object handed to the facades: its three tiers, and [list(scan)]
    ([None] when the object is not iterable). *)
Record scan_like : Type := {
  deconvoluted_peak_set : attribute (list DeconvolutedPeak.t);
  peak_set : attribute (list FittedPeak.t);
  arrays : attribute RawDataArrays.t;
  points : option (list element)
}.

(** [try: return call() except (AttributeError, TypeError): pass], then
    the rest of the function. *)
Definition try_tier {A : Type} (call : result A) (otherwise : result A) : result A :=
  match call with
  | Raise AttributeError | Raise TypeError => otherwise
  | r => r
  end.

(** [list(self.scan)]. *)
Definition list_of_scan (scan : scan_like) : result (list element) :=
  match points scan with
  | Some l => Ok l
  | None => Raise TypeError
  end.

(** Reading an attribute, then handing its value on. *)
Definition read {A B : Type} (a : attribute A) (k : option A -> result B) : result B :=
  match a with
  | Missing => Raise AttributeError
  | IsNone => k None
  | Has v => k (Some v)
  end.

(** [sum(xs)] and [total = 0; for x in xs: total += x]. *)
Definition total (xs : list Q) : Q := fold_left Qplus xs 0.

Module TICMethods.

(** [_peak_set_tic] and [_peak_sequence_tic] on an attribute value:
    iterating [None] is a [TypeError]. *)
Definition _peak_set_tic {P : Type} `{PeakLike P} (peaks : option (list P)) : result Q :=
  match peaks with
  | None => Raise TypeError
  | Some ps => Ok (total (map peak_intensity ps))
  end.

(** [_peak_sequence_tic] on the elements of the scan: [peak.intensity]
    fails on an element that is not a peak. *)
Fixpoint _peak_sequence_tic (acc : Q) (peaks : list element) : result Q :=
  match peaks with
  | [] => Ok acc
  | EPeak p :: rest => _peak_sequence_tic (acc + FittedPeak.intensity p) rest
  | _ :: _ => Raise AttributeError
  end.

(** [_simple_tic]: [sum(points)] fails on an element that is not a
    number. *)
Fixpoint _simple_tic (acc : Q) (pts : list element) : result Q :=
  match pts with
  | [] => Ok acc
  | ENumber x :: rest => _simple_tic (acc + x) rest
  | _ :: _ => Raise TypeError
  end.

Definition _tic_raw_data_arrays (a : option RawDataArrays.t) : result Q :=
  match a with
  | None => Raise AttributeError
  | Some a => Ok (total (RawDataArrays.intensity a))
  end.

Definition raw (scan : scan_like) : result Q :=
  read (arrays scan) _tic_raw_data_arrays.

Definition centroided (scan : scan_like) : result Q :=
  read (peak_set scan) _peak_set_tic.

Definition deconvoluted (scan : scan_like) : result Q :=
  read (deconvoluted_peak_set scan) _peak_set_tic.

Definition _guess (scan : scan_like) : result Q :=
  try_tier (deconvoluted scan)
    (try_tier (centroided scan)
       (try_tier (raw scan)
          (let* pts := list_of_scan scan in
           match pts with
           | EPeak _ :: _ => _peak_sequence_tic 0 pts
           | ENumber _ :: _ => _simple_tic 0 pts
           | EOther :: _ => Raise TypeError
           | [] => Raise TypeError
           end))).

Definition __call__ (scan : scan_like) : result Q := _guess scan.

End TICMethods.

Module BasePeakMethods.

(** What a base peak call answers: [None], a peak of one of the two
    peak sets, or the named tuple [BasePeak(mz, intensity)]. *)
Inductive base_peak : Type :=
| NoPeak
| Fit (p : DeconvolutedPeak.t)
| Picked (p : FittedPeak.t)
| base_peak_t (mz intensity : Q).

(** [max(peaks, key=lambda x: x.intensity)] after the first element:
    the first of the largest is kept. *)
Fixpoint max_by {P : Type} (key : P -> Q) (best : P) (rest : list P) : P :=
  match rest with
  | [] => best
  | p :: rest' => max_by key (if Qltb (key best) (key p) then p else best) rest'
  end.

(** [_peak_set_bp]: [None] and the empty set are both falsy. *)
Definition _peak_set_bp {P : Type} `{PeakLike P} (wrap : P -> base_peak)
    (peaks : option (list P)) : result base_peak :=
  match peaks with
  | None | Some [] => Ok NoPeak
  | Some (p :: rest) => Ok (wrap (max_by peak_intensity p rest))
  end.

(** [_peak_sequence_bp] on the elements of the scan: the key fails on an
    element that is not a peak. *)
Fixpoint peaks_of_elements (pts : list element) : result (list FittedPeak.t) :=
  match pts with
  | [] => Ok []
  | EPeak p :: rest =>
      let* ps := peaks_of_elements rest in Ok (p :: ps)
  | _ :: _ => Raise AttributeError
  end.

Definition _peak_sequence_bp (pts : list element) : result base_peak :=
  match pts with
  | [] => Ok NoPeak
  | _ :: _ =>
      let* ps := peaks_of_elements pts in
      _peak_set_bp Picked (Some ps)
  end.

(** [numpy.argmax]: the first index of the largest entry, [ValueError]
    on an empty array. *)
Fixpoint argmax_from (best_i : nat) (best : Q) (i : nat) (xs : list Q) : nat :=
  match xs with
  | [] => best_i
  | x :: xs' =>
      if Qltb best x then argmax_from i x (S i) xs'
      else argmax_from best_i best (S i) xs'
  end.

Definition argmax (xs : list Q) : result nat :=
  match xs with
  | [] => Raise ValueError
  | x :: xs' => Ok (argmax_from 0 x 1 xs')
  end.

Definition _bp_raw_data_arrays (a : option RawDataArrays.t) : result base_peak :=
  match a with
  | None => Raise AttributeError
  | Some a =>
      let* i := argmax (RawDataArrays.intensity a) in
      let* m := index (RawDataArrays.mz a) i in
      let* y := index (RawDataArrays.intensity a) i in
      Ok (base_peak_t m y)
  end.

Definition raw (scan : scan_like) : result base_peak :=
  read (arrays scan) _bp_raw_data_arrays.

Definition centroided (scan : scan_like) : result base_peak :=
  read (peak_set scan) (_peak_set_bp Picked).

Definition deconvoluted (scan : scan_like) : result base_peak :=
  read (deconvoluted_peak_set scan) (_peak_set_bp Fit).

Definition _guess (scan : scan_like) : result base_peak :=
  try_tier (deconvoluted scan)
    (try_tier (centroided scan)
       (try_tier (raw scan)
          (let* pts := list_of_scan scan in
           match pts with
           | EPeak _ :: _ => _peak_sequence_bp pts
           | _ :: _ => Raise TypeError
           | [] => Raise TypeError
           end))).

Definition __call__ (scan : scan_like) : result base_peak := _guess scan.

(** The intensity carried by an answer, when it has one. *)
Definition intensity_of (b : base_peak) : option Q :=
  match b with
  | NoPeak => None
  | Fit p => Some (DeconvolutedPeak.intensity p)
  | Picked p => Some (FittedPeak.intensity p)
  | base_peak_t _ y => Some y
  end.

End BasePeakMethods.

(** ** PrecursorInformation: copies, the product scan and [correct_mz] *)

Module PrecursorInformationMethods.
Import PrecursorInformation.

(** [copy()] hands every attribute, [source] included, to the
    constructor. *)
Definition copy (self : t) : t :=
  __init__ (mz self) (intensity self) (charge self) (precursor_scan_id self)
    (source self) (extracted_neutral_mass self) (extracted_charge self)
    (extracted_intensity self) (peak self) (extracted_peak self)
    (defaulted self) (orphan self) (product_scan_id self)
    (Some (annotations self)) (Some (coisolation self)).

Definition clone (self : t) : t := copy self.

(** [self.product], the twin of [self.precursor]. *)
Definition product (self : t) : result (option Scan.t) :=
  match product_scan_id self with
  | None => Ok None
  | Some scan_id =>
      match source self with
      | None => Raise AttributeError
      | Some src => get_scan_by_id src scan_id
      end
  end.

(** [self.mz = value]. *)
Definition set_mz (self : t) (value : Q) : t :=
  mk value (intensity self) (charge self) (precursor_scan_id self)
     (source self) (extracted_neutral_mass self) (extracted_charge self)
     (extracted_intensity self) (peak self) (extracted_peak self)
     (defaulted self) (orphan self) (product_scan_id self)
     (annotations self) (coisolation self).

(** [max(region, key=lambda x: x.intensity)] on a non-empty region: the
    first of the most intense peaks. *)
Fixpoint most_intense (best : FittedPeak.t) (rest : list FittedPeak.t)
  : FittedPeak.t :=
  match rest with
  | [] => best
  | p :: rest' =>
      most_intense
        (if Qltb (FittedPeak.intensity best) (FittedPeak.intensity p)
         then p else best) rest'
  end.

Section Correction.
(** The collaborators of [correct_mz]: [Scan.pick_peaks], the peak set
    methods [has_peak] and [between], the [isolation_window] attribute of a
    product scan, and the isolation window methods and bounds. *)
Variable Window : Type.
Variable pick_peaks : Scan.t -> Scan.t.
Variable has_peak : list FittedPeak.t -> Q -> Q -> option FittedPeak.t.
Variable between : list FittedPeak.t -> Q -> Q -> list FittedPeak.t.
Variable isolation_window : Scan.t -> option Window.
Variable is_empty : Window -> bool.
Variable spans : Window -> Q -> bool.
Variable lower_bound : Window -> Q.
Variable upper_bound : Window -> Q.

(** Lines 803-815: the isolation window check, with the peak set of the
    precursor scan at hand. *)
Definition enforce_window (self : t) (peaks : list FittedPeak.t) : result t :=
  let* product_scan := product self in
  let window :=
    match product_scan with
    | Some scan => isolation_window scan
    | None => None
    end in
  match window with
  | Some w =>
      if negb (is_empty w) then
        if negb (spans w (mz self)) then
          match between peaks (lower_bound w) (upper_bound w) with
          | [] => Ok self
          | p :: rest => Ok (set_mz self (FittedPeak.mz (most_intense p rest)))
          end
        else Ok self
      else Ok self
  | None => Ok self
  end.

(** [correct_mz(error_tolerance=2e-5, enforce_isolation_window=False)]. *)
Definition correct_mz (self : t) (error_tolerance : Q)
    (enforce_isolation_window : bool) : result t :=
  match precursor_scan_id self with
  | None => Ok self
  | Some _ =>
      let* precursor_scan := precursor self in
      match precursor_scan with
      | None => Ok self
      | Some precursor_scan =>
          let precursor_scan := picked pick_peaks precursor_scan in
          let* peaks :=
            match Scan.peak_set precursor_scan with
            | None => Raise AttributeError
            | Some ps => Ok ps
            end in
          let self :=
            match has_peak peaks (mz self) error_tolerance with
            | Some p => set_mz self (FittedPeak.mz p)
            | None => self
            end in
          if enforce_isolation_window
             && bool_decide (product_scan_id self <> None)
          then enforce_window self peaks
          else Ok self
      end
  end.
End Correction.
End PrecursorInformationMethods.

(** ** ScanBunch *)

Module ScanBunch.
Section Bunch.
(** The scan objects of a bunch, through what the class reads of them:
    [scan.id], [scan.precursor_information] and [scan.pack()]. *)
Variable S : Type.
Variable scan_id : S -> string.
Variable precursor_information : S -> option PrecursorInformation.t.
Variable pack_scan : S -> S.

(** The named tuple [(precursor, products)] with the [_id_map] dictionary
    that [__new__] attaches to it. *)
Record t : Type := mk {
  precursor : option S;
  products : list S;
  _id_map : gmap string S
}.

(** The scans of a group: the precursor, when there is one, and the
    products. *)
Definition members (precursor : option S) (products : list S) : list S :=
  match precursor with
  | Some p => p :: products
  | None => products
  end.

(** [for scan in products: _id_map[scan.id] = scan]. *)
Definition index_products (products : list S) (id_map : gmap string S)
  : gmap string S :=
  foldl (fun m scan => <[scan_id scan := scan]> m) id_map products.

Definition __new__ (precursor : option S) (products : list S) : t :=
  let id_map := (∅ : gmap string S) in
  let id_map :=
    match precursor with
    | Some p => <[scan_id p := p]> id_map
    | None => id_map
    end in
  mk precursor products (index_products products id_map).

(** [self._id_map[scan_id]]. *)
Definition get_scan_by_id (self : t) (key : string) : result S :=
  match _id_map self !! key with
  | Some scan => Ok scan
  | None => Raise KeyError
  end.

(** [precursor_for]: a link whose [precursor_scan_id] is [None] is looked
    up all the same, and [None] is no key of the dictionary. *)
Definition precursor_for (self : t) (scan : S) : result (option S) :=
  match precursor_information scan with
  | Some link =>
      match PrecursorInformation.precursor_scan_id link with
      | Some key => let* found := get_scan_by_id self key in Ok (Some found)
      | None => Raise KeyError
      end
  | None => Ok None
  end.

(** [pack]: [self.precursor.pack()] fails on a bunch without precursor. *)
Definition pack (self : t) : result t :=
  match precursor self with
  | None => Raise AttributeError
  | Some p => Ok (__new__ (Some (pack_scan p)) (map pack_scan (products self)))
  end.
End Bunch.
End ScanBunch.

(** ** Envelope statistics ([ms_deisotope/envelope_statistics.py]) *)

Module EnvelopeStatistics.

(** A peak of an isotopic envelope; a placeholder for a missing peak has
    an m/z that is not above 1. *)
Record peak : Type := mk {
  mz : Q;
  intensity : Q;
  signal_to_noise : Q
}.

(** What a call answers: a number, the [ZeroDivisionError] of a float
    division by zero, or the [ValueError] of [max] on an empty list. *)
Inductive answer : Type :=
| Returns (x : Q)
| ZeroDivisionError
| MaxOfEmpty.

(** [[p for p in envelope if p.mz > 1]]. *)
Definition real_peaks (envelope : list peak) : list peak :=
  List.filter (fun p => Qltb 1 (mz p)) envelope.

(** [max(peaks, key=intensity_getter)] after the first element. *)
Fixpoint max_intensity (best : peak) (rest : list peak) : peak :=
  match rest with
  | [] => best
  | p :: rest' =>
      max_intensity (if Qltb (intensity best) (intensity p) then p else best) rest'
  end.

Definition most_abundant_mz (envelope : list peak) : answer :=
  match real_peaks envelope with
  | [] => MaxOfEmpty
  | p :: rest => Returns (mz (max_intensity p rest))
  end.

(** [float(len(envelope))]. *)
Definition float_len (envelope : list peak) : Q :=
  inject_Z (Z.of_nat (length envelope)).

Section Rounded.
(** The two float operations of the ratios and averages: [x + y] and
    [x / y], each rounded to a float; the quotient is asked for a non-zero
    divisor only. *)
Variable float_add : Q -> Q -> Q.
Variable float_div : Q -> Q -> Q.

(** [x / y] on floats. *)
Definition divide (x y : Q) : answer :=
  if Qeqb y 0 then ZeroDivisionError else Returns (float_div x y).

(** [a_to_a2_ratio]: the last case is [len(envelope) < 3]. *)
Definition a_to_a2_ratio (envelope : list peak) : answer :=
  match envelope with
  | a0 :: _ :: a2 :: _ =>
      if Qltb (mz a0) 0 || Qltb (mz a2) 0 then Returns 0
      else divide (intensity a0) (intensity a2)
  | _ => Returns 0
  end.

(** [sum(xs)]: the additions are made from the left, starting from 0. *)
Definition float_sum (xs : list Q) : Q := fold_left float_add xs 0.

Definition average_mz (envelope : list peak) : answer :=
  let envelope := real_peaks envelope in
  divide (float_sum (map mz envelope)) (float_len envelope).

Definition average_signal_to_noise (envelope : list peak) : answer :=
  let envelope := real_peaks envelope in
  divide (float_sum (map signal_to_noise envelope)) (float_len envelope).
End Rounded.

End EnvelopeStatistics.

(** ** The mass conversions used in the examples *)

(** Modelled from the spec: the mass conversion collaborator
    ([ms_deisotope.averagine.neutral_mass] and [mass_charge_ratio], which are
    not among the sources), two pure functions of a mass and a charge; the
    examples instantiate them for a proton charge carrier. *)
Definition PROTON : Q := 100727646677 # 100000000000.

Definition averagine_neutral_mass (mz : Q) (z : Z) : Q :=
  mz * inject_Z (Z.abs z) - inject_Z z * PROTON.

Definition averagine_mass_charge_ratio (mass : Q) (z : Z) : Q :=
  (mass + inject_Z z * PROTON) / inject_Z (Z.abs z).

(** ** Example data *)

(** A precursor scan with one picked peak near m/z 500, and a source that
    knows only this scan. *)
Definition example_scan : Scan.t :=
  Scan.mk "scan=1" (Some [FittedPeak.mk (5002505 # 10000) 1000]) 1.

Definition example_source : ScanSource :=
  {| get_scan_by_id := fun scan_id =>
       if String.eqb scan_id "scan=1" then Ok (Some example_scan)
       else Raise KeyError |}.

(** A product's link as read from the file: m/z 500.25, charge 2. *)
Definition example_link : PrecursorInformation.t :=
  PrecursorInformation.__init__ (50025 # 100) 1000 (ChargeInt 2)
    (Some "scan=1") (Some example_source) 0 (ChargeInt 0) 0 None None
    false false (Some "scan=2") None None.

(** Two product scans of the precursor scan, the link that each carries,
    and the packing that drops the picked peaks. *)
Definition example_product : Scan.t := Scan.mk "scan=2" None 1.
Definition example_product' : Scan.t := Scan.mk "scan=3" None 1.

Definition example_precursor_information (scan : Scan.t)
  : option PrecursorInformation.t :=
  if String.eqb (Scan.id scan) "scan=1" then None
  else Some (PrecursorInformation.__init__ (50025 # 100) 1000 (ChargeInt 2)
               (Some "scan=1") None 0 (ChargeInt 0) 0 None None
               false false (Some (Scan.id scan)) None None).

Definition example_pack (scan : Scan.t) : Scan.t :=
  Scan.mk (Scan.id scan) None (Scan.polarity scan).


(** A link that names no precursor scan. *)
Definition example_unlinked : PrecursorInformation.t :=
  PrecursorInformation.__init__ (50025 # 100) 1000 (ChargeInt 2)
    None (Some example_source) 0 (ChargeInt 0) 0 None None
    false false (Some "scan=2") None None.

(** The same link after [default()]. *)
Definition example_defaulted_link : PrecursorInformation.t :=
  PrecursorInformation.default averagine_neutral_mass example_link false.

(** Collaborators for the examples: peak picking that leaves the scan as
    it is, a reference peak search that answers the first picked peak, a
    window selection that keeps the whole set, and a deconvolution that fits
    a triply charged peak to the priority target. *)
Definition example_pick_peaks (scan : Scan.t) : Scan.t := scan.

Definition example_has_peak (scan : Scan.t) (mz tol : Q) : option FittedPeak.t :=
  match Scan.peak_set scan with
  | Some (p :: _) => Some p
  | _ => None
  end.

Definition example_between (peaks : list FittedPeak.t) (lo hi : Q)
  : list FittedPeak.t := peaks.

Definition example_fit : DeconvolutedPeak.t :=
  DeconvolutedPeak.mk (14977287 # 10000) 3 900.

Definition example_deconvolute_peaks (peaks priority : list FittedPeak.t)
    (charge_range : Z * Z) (kwargs : unit)
  : list DeconvolutedPeak.t * list (option DeconvolutedPeak.t) :=
  ([example_fit], map (fun _ => Some example_fit) priority).

(** Raw arrays: a sorted axis, with and without a drift time channel. *)
Definition example_arrays : RawDataArrays.t :=
  RawDataArrays.mk [1; 2; 41 # 20] [10; 20; 30] ∅.

Definition example_arrays_with_channel : RawDataArrays.t :=
  RawDataArrays.mk [1; 2; 41 # 20] [10; 20; 30]
    {[ "drift time"%string := [1; 1; 2] ]}.

Definition example_average_signal (arrays : list RawDataArrays.t)
  : list Q * list Q :=
  match arrays with
  | a :: _ => (RawDataArrays.mz a, RawDataArrays.intensity a)
  | [] => ([], [])
  end.

(** A plain list of numbers handed to the facades, and a scan with the
    three tiers. *)
Definition example_number_list : scan_like :=
  {| deconvoluted_peak_set := Missing; peak_set := Missing; arrays := Missing;
     points := Some [ENumber 1; ENumber 3; ENumber 2] |}.

Definition example_processed_scan : scan_like :=
  {| deconvoluted_peak_set :=
       Has [DeconvolutedPeak.mk 1000 1 10; DeconvolutedPeak.mk 1200 2 5;
            DeconvolutedPeak.mk 1300 1 2];
     peak_set := Has [FittedPeak.mk 500 40];
     arrays := Has example_arrays;
     points := None |}.

(** The same three tiers with the deconvoluted peaks in another order. *)
Definition example_processed_scan_unordered : scan_like :=
  {| deconvoluted_peak_set :=
       Has [DeconvolutedPeak.mk 1300 1 2; DeconvolutedPeak.mk 1000 1 10;
            DeconvolutedPeak.mk 1200 2 5];
     peak_set := Has [FittedPeak.mk 500 40];
     arrays := Has example_arrays;
     points := None |}.

(** An envelope of a placeholder and one peak. *)
Definition example_envelope : list EnvelopeStatistics.peak :=
  [EnvelopeStatistics.mk 1 1 1; EnvelopeStatistics.mk (50025 # 100) 1000 12].

(** A source that knows the precursor scan and one product scan, a link
    bound to it, and an isolation window given by its two bounds, with the
    window methods and the peak set methods that go with it. *)
Definition example_source_of_both : ScanSource :=
  {| get_scan_by_id := fun scan_id =>
       if String.eqb scan_id "scan=1" then Ok (Some example_scan)
       else if String.eqb scan_id "scan=2" then Ok (Some example_product)
       else Raise KeyError |}.

Definition example_bound_link : PrecursorInformation.t :=
  PrecursorInformation.__init__ (4995 # 10) 1000 (ChargeInt 2)
    (Some "scan=1") (Some example_source_of_both) 0 (ChargeInt 0) 0 None None
    false false (Some "scan=2") None None.

Definition example_window_of (scan : Scan.t) : option (Q * Q) :=
  Some (500, 501).

Definition example_window_is_empty (w : Q * Q) : bool := false.

Definition example_spans (w : Q * Q) (x : Q) : bool :=
  Qleb (fst w) x && Qleb x (snd w).

Definition example_between_bounds (peaks : list FittedPeak.t) (lo hi : Q)
  : list FittedPeak.t :=
  List.filter (fun p => Qleb lo (FittedPeak.mz p) && Qleb (FittedPeak.mz p) hi)
    peaks.

Definition example_nearest_peak (peaks : list FittedPeak.t) (mz tol : Q)
  : option FittedPeak.t :=
  List.find (fun p => Qleb (Qabs (FittedPeak.mz p - mz)) (tol * mz)) peaks.

(** A reference peak search that finds nothing, and a deconvolution that
    fits a doubly charged peak. *)
Definition example_has_no_peak (scan : Scan.t) (mz tol : Q)
  : option FittedPeak.t := None.

Definition example_fit_of_charge_2 : DeconvolutedPeak.t :=
  DeconvolutedPeak.mk (9984855 # 10000) 2 900.

Definition example_deconvolute_charge_2 (peaks priority : list FittedPeak.t)
    (charge_range : Z * Z) (kwargs : unit)
  : list DeconvolutedPeak.t * list (option DeconvolutedPeak.t) :=
  ([example_fit_of_charge_2], map (fun _ => Some example_fit_of_charge_2) priority).

(** Arrays without points, and objects for the lower tiers of the
    facades. *)
Definition example_empty_arrays : RawDataArrays.t :=
  RawDataArrays.mk [] [] ∅.

Definition example_raw_scan : scan_like :=
  {| deconvoluted_peak_set := Missing; peak_set := Missing;
     arrays := Has example_arrays; points := None |}.

Definition example_empty_raw_scan : scan_like :=
  {| deconvoluted_peak_set := Missing; peak_set := Missing;
     arrays := Has example_empty_arrays; points := None |}.

Definition example_peak_list : scan_like :=
  {| deconvoluted_peak_set := Missing; peak_set := Missing; arrays := Missing;
     points := Some (map EPeak [FittedPeak.mk 500 40; FittedPeak.mk 501 70]) |}.

Definition example_empty_list : scan_like :=
  {| deconvoluted_peak_set := Missing; peak_set := Missing; arrays := Missing;
     points := Some [] |}.

(** ** Strictly increasing axes *)

(** The m/z axis has no repeated value: each point lies above the one
    before. *)
Fixpoint is_increasing (xs : list Q) : bool :=
  match xs with
  | x :: (y :: _) as rest => Qltb x y && is_increasing rest
  | _ => true
  end.

(** ** Equality of precursor records, as specified *)

(** Whether a record carries a fit, in the sense of [__eq__]. *)
Definition has_fit (a : PrecursorInformation.t) : Prop :=
  ~ PrecursorInformation.extracted_neutral_mass a == 0.

(** Both readings of an m/z return, and the two values are numerically
    close. *)
Definition both_close (x y : result Q) : Prop :=
  exists u v, x = Ok u /\ y = Ok v /\ isclose u v = true.

(** Equality as the specification words it: same ids, and either both
    records carry a fit and agree on the extracted values, or neither does
    and they agree on the vendor values. *)
Definition equal_as_specified (mass_charge_ratio : Q -> Z -> Q)
    (a b : PrecursorInformation.t) : Prop :=
  PrecursorInformation.precursor_scan_id a = PrecursorInformation.precursor_scan_id b
  /\ PrecursorInformation.product_scan_id a = PrecursorInformation.product_scan_id b
  /\ ((has_fit a /\ has_fit b
       /\ both_close (PrecursorInformation.extracted_mz mass_charge_ratio a)
                     (PrecursorInformation.extracted_mz mass_charge_ratio b)
       /\ PrecursorInformation.extracted_charge a
          = PrecursorInformation.extracted_charge b)
      \/ (~ has_fit a /\ ~ has_fit b
          /\ isclose (PrecursorInformation.mz a) (PrecursorInformation.mz b) = true
          /\ PrecursorInformation.charge a = PrecursorInformation.charge b)).

(** * Properties *)

(** ** Boolean comparisons *)

Lemma Qleb_le (x y : Q) : Qleb x y = true <-> x <= y.
Proof. apply Qle_bool_iff. Qed.

Lemma Qleb_gt (x y : Q) : Qleb x y = false <-> y < x.
Proof.
  unfold Qleb. rewrite <- not_true_iff_false, Qle_bool_iff.
  split; [apply Qnot_le_lt | apply Qlt_not_le].
Qed.

Lemma Qltb_lt (x y : Q) : Qltb x y = true <-> x < y.
Proof. unfold Qltb. rewrite negb_true_iff. apply Qleb_gt. Qed.

Lemma Qltb_ge (x y : Q) : Qltb x y = false <-> y <= x.
Proof. unfold Qltb. rewrite negb_false_iff. apply Qleb_le. Qed.

Lemma Qeqb_eq (x y : Q) : Qeqb x y = true <-> x == y.
Proof. apply Qeq_bool_iff. Qed.

Lemma charge_eqb_eq (a b : charge_state) : charge_eqb a b = true <-> a = b.
Proof.
  destruct a as [|x], b as [|y]; simpl; split; try congruence.
  - intros H. apply Z.eqb_eq in H. congruence.
  - intros H. injection H as ->. apply Z.eqb_refl.
Qed.

(** ** Arithmetic on raw arrays drops the auxiliary channels *)

Section ArraysArithmetic.
Import RawDataArrays.
Variable average_signal : list t -> list Q * list Q.

Lemma new_without_arrays (m i : list Q) : data_arrays (__new__ m i None) = ∅.
Proof. reflexivity. Qed.

Lemma copy_data_arrays (a : t) : data_arrays (copy a) = data_arrays a.
Proof.
  unfold copy, __copy__, __new__. simpl.
  rewrite map_fmap_id. apply (right_id ∅ (∪)).
Qed.

Lemma broadcast_same_length {A : Type} (f : Q -> Q -> A) (xs ys : list Q) :
  length xs = length ys -> broadcast f xs ys = Ok (zip_with_same f xs ys).
Proof.
  intros H. unfold broadcast. rewrite H, Nat.eqb_refl. reflexivity.
Qed.

Lemma add_data_arrays (a b r : t) :
  __add__ average_signal a b = Ok r -> data_arrays r = ∅.
Proof.
  unfold __add__.
  destruct (Nat.eqb _ _); simpl.
  - destruct (allclose (mz a) (mz b)) as [[|]|e]; simpl; try discriminate.
    + destruct (array_add _ _); simpl; [|discriminate].
      intros [= <-]. reflexivity.
    + destruct (average_signal _). intros [= <-]. reflexivity.
  - destruct (average_signal _). intros [= <-]. reflexivity.
Qed.

Lemma add_returns (a b : t) :
  length (mz a) = length (intensity a) ->
  length (mz b) = length (intensity b) ->
  exists r, __add__ average_signal a b = Ok r.
Proof.
  intros Ha Hb. unfold __add__.
  destruct (Nat.eqb _ _) eqn:Hlen; simpl.
  - apply Nat.eqb_eq in Hlen.
    unfold allclose. rewrite (broadcast_same_length _ _ _ Hlen). simpl.
    destruct (forallb _ _).
    + unfold array_add. rewrite broadcast_same_length by congruence.
      simpl. eauto.
    + destruct (average_signal _). eauto.
  - destruct (average_signal _). eauto.
Qed.

(** The two branches of [__add__] on well-formed arrays. *)
Lemma add_same_axis (a b : t) :
  length (mz a) = length (intensity a) ->
  length (mz b) = length (intensity b) ->
  length (mz a) = length (mz b) ->
  allclose (mz a) (mz b) = Ok true ->
  __add__ average_signal a b
  = Ok (mk (mz a) (zip_with_same Qplus (intensity a) (intensity b)) ∅).
Proof.
  intros Ha Hb Hlen Hclose. unfold __add__.
  rewrite Hlen, Nat.eqb_refl, Hclose. simpl.
  unfold array_add. rewrite broadcast_same_length by congruence.
  reflexivity.
Qed.

Lemma add_resampled (a b : t) :
  length (mz a) ≠ length (mz b) \/ allclose (mz a) (mz b) = Ok false ->
  __add__ average_signal a b
  = Ok (mk (fst (average_signal [a; b]))
           (array_scale (snd (average_signal [a; b])) 2) ∅).
Proof.
  intros H. unfold __add__.
  destruct (Nat.eqb _ _) eqn:Hlen; simpl.
  - destruct H as [H|H]; [apply Nat.eqb_eq in Hlen; contradiction|].
    rewrite H. simpl. destruct (average_signal _). reflexivity.
  - destruct (average_signal _). reflexivity.
Qed.

(** C10: for an array with at least one auxiliary channel, scaling and
    both branches of addition (same axis, or resampled and doubled) give an
    array whose auxiliary-channel dictionary is empty, while [copy] keeps
    the channels. *)
Theorem arithmetic_drops_data_arrays (a b : t) (i : Q) :
  data_arrays a ≠ ∅ ->
  length (mz a) = length (intensity a) ->
  length (mz b) = length (intensity b) ->
  data_arrays (__mul__ a i) = ∅
  /\ (exists r, __add__ average_signal a b = Ok r /\ data_arrays r = ∅
                /\ data_arrays r ≠ data_arrays a)
  /\ (exists r, __add__ average_signal b a = Ok r /\ data_arrays r = ∅)
  /\ data_arrays (copy a) = data_arrays a
  /\ data_arrays (copy a) ≠ ∅.
Proof.
  intros Hne Ha Hb. split; [reflexivity|]. split; [|split; [|split]].
  - destruct (add_returns a b Ha Hb) as [r Hr].
    exists r. pose proof (add_data_arrays _ _ _ Hr) as He.
    split; [exact Hr|]. split; [exact He|]. rewrite He. congruence.
  - destruct (add_returns b a Hb Ha) as [r Hr].
    exists r. split; [exact Hr|]. exact (add_data_arrays _ _ _ Hr).
  - apply copy_data_arrays.
  - rewrite copy_data_arrays. exact Hne.
Qed.
End ArraysArithmetic.

(** ** Pickling a precursor information record *)

Section Pickling.
Import PrecursorInformation.

Lemma unbind_source (p : t) : source (unbind p) = None.
Proof. reflexivity. Qed.

(** C9: reading back a pickled record gives the record with every
    attribute as it was and [source] set to [None]; a state tuple of the
    older layouts, without [coisolation] or without both [annotations] and
    [coisolation], leaves the empty list and the empty dictionary in their
    place. *)
Theorem pickle_roundtrip (p : t) :
  loads (dumps p)
  = Ok (mk (mz p) (intensity p) (charge p) (precursor_scan_id p) None
           (extracted_neutral_mass p) (extracted_charge p)
           (extracted_intensity p) (peak p) (extracted_peak p)
           (defaulted p) (orphan p) (product_scan_id p)
           (annotations p) (coisolation p))
  /\ loads (fst (dumps p), take 13 (snd (dumps p)))
     = Ok (mk (mz p) (intensity p) (charge p) (precursor_scan_id p) None
              (extracted_neutral_mass p) (extracted_charge p)
              (extracted_intensity p) (peak p) (extracted_peak p)
              (defaulted p) (orphan p) (product_scan_id p)
              ∅ [])
  /\ loads (fst (dumps p), take 14 (snd (dumps p)))
     = Ok (mk (mz p) (intensity p) (charge p) (precursor_scan_id p) None
              (extracted_neutral_mass p) (extracted_charge p)
              (extracted_intensity p) (peak p) (extracted_peak p)
              (defaulted p) (orphan p) (product_scan_id p)
              (annotations p) []).
Proof. repeat split. Qed.

Lemma pickle_roundtrip_unbind (p : t) : loads (dumps p) = Ok (unbind p).
Proof. reflexivity. Qed.

Lemma setstate_short (p : t) (state : list item) :
  (length state < 13)%nat -> __setstate__ p state = Raise ValueError.
Proof.
  intros H. unfold __setstate__.
  rewrite firstn_all2 by lia.
  destruct (Nat.eqb_spec (length state) 13); [lia | reflexivity].
Qed.
End Pickling.

(** ** Equality of raw arrays *)

Section ArraysEquality.
Import RawDataArrays.

(** C8: comparing an array with [None] or with a plain number raises
    [TypeError] (only [ValueError] is handled), instead of answering
    [False]. *)
Theorem eq_non_array_raises (self : t) :
  __eq__ self PyNone = Raise TypeError
  /\ (forall x, __eq__ self (PyNumber x) = Raise TypeError)
  /\ __eq__ self PyNone <> Ok false.
Proof. repeat split; discriminate. Qed.

Lemma forallb_zip_isclose (xs ys : list Q) :
  length xs = length ys ->
  forallb (fun c : bool => c) (zip_with_same isclose xs ys) = true
  <-> Forall2 (fun x y => isclose x y = true) xs ys.
Proof.
  revert ys. induction xs as [|x xs IH]; intros [|y ys] Hlen;
    simpl in *; try discriminate.
  - split; [constructor | reflexivity].
  - rewrite andb_true_iff, IH by congruence. split.
    + intros [? ?]. constructor; assumption.
    + intros H. inversion H; subst. split; assumption.
Qed.

(** Two arrays of the same shape are equal exactly when both columns
    are elementwise close. *)
Lemma eq_same_shape (self other : t) :
  length (mz self) = length (mz other) ->
  length (intensity self) = length (intensity other) ->
  exists b, __eq__ self (PyArrays other) = Ok b
    /\ (b = true <->
        Forall2 (fun x y => isclose x y = true) (mz self) (mz other)
        /\ Forall2 (fun x y => isclose x y = true)
             (intensity self) (intensity other)).
Proof.
  intros Hm Hi. unfold __eq__, __eq__body, allclose. simpl.
  rewrite !broadcast_same_length by assumption. simpl.
  pose proof (forallb_zip_isclose _ _ Hm) as Em.
  pose proof (forallb_zip_isclose _ _ Hi) as Ei.
  destruct (forallb _ (zip_with_same isclose (mz self) (mz other))); simpl.
  - eexists; split; [reflexivity|]. rewrite Ei. tauto.
  - exists false. split; [reflexivity|].
    split; [discriminate|]. intros [H _]. apply Em in H. discriminate.
Qed.

(** Axes of different lengths, neither of length one, compare unequal. *)
Lemma eq_mismatched_axes (self other : t) :
  length (mz self) ≠ length (mz other) ->
  length (mz self) ≠ 1%nat -> length (mz other) ≠ 1%nat ->
  __eq__ self (PyArrays other) = Ok false.
Proof.
  intros Hne H1 H2. unfold __eq__, __eq__body, allclose, broadcast. simpl.
  apply Nat.eqb_neq in Hne. rewrite Hne.
  destruct (mz self) as [|x [|x' xs]], (mz other) as [|y [|y' ys]];
    simpl in *; try reflexivity; congruence.
Qed.
End ArraysEquality.

(** ** The tiered facades *)

Section Facades.

Lemma simple_tic_numbers (xs : list Q) (acc : Q) :
  TICMethods._simple_tic acc (map ENumber xs) = Ok (fold_left Qplus xs acc).
Proof.
  revert acc. induction xs as [|x xs IH]; intros acc; simpl; [reflexivity|].
  apply IH.
Qed.

Lemma max_by_spec {P : Type} (key : P -> Q) (rest : list P) :
  forall best,
    In (BasePeakMethods.max_by key best rest) (best :: rest)
    /\ forall p, In p (best :: rest) ->
                 key p <= key (BasePeakMethods.max_by key best rest).
Proof.
  induction rest as [|x rest IH]; intros best; simpl.
  - split; [left; reflexivity|]. intros p [<-|[]]. apply Qle_refl.
  - destruct (Qltb (key best) (key x)) eqn:E.
    + apply Qltb_lt in E. destruct (IH x) as [Hin Hmax]. split.
      * destruct Hin as [<-|Hin]; auto.
      * intros p [<-|[<-|Hp]].
        -- apply Qle_trans with (key x); [lra|]. apply Hmax. left. reflexivity.
        -- apply Hmax. left. reflexivity.
        -- apply Hmax. right. exact Hp.
    + apply Qltb_ge in E. destruct (IH best) as [Hin Hmax]. split.
      * destruct Hin as [<-|Hin]; auto.
      * intros p [<-|[<-|Hp]].
        -- apply Hmax. left. reflexivity.
        -- apply Qle_trans with (key best); [exact E|].
           apply Hmax. left. reflexivity.
        -- apply Hmax. right. exact Hp.
Qed.

Lemma fold_plus_Forall2 (xs ys : list Q) :
  Forall2 Qeq xs ys ->
  forall a b, a == b -> fold_left Qplus xs a == fold_left Qplus ys b.
Proof.
  induction 1 as [|x y xs ys Hxy _ IH]; intros a b Hab; simpl; [exact Hab|].
  apply IH. rewrite Hab, Hxy. reflexivity.
Qed.

Lemma fold_plus_Permutation (xs ys : list Q) :
  Permutation xs ys ->
  forall a, fold_left Qplus xs a == fold_left Qplus ys a.
Proof.
  induction 1 as [|x xs ys _ IH|x y xs|xs ys zs _ IH1 _ IH2]; intros a; simpl.
  - reflexivity.
  - apply IH.
  - apply fold_plus_Forall2; [|ring].
    induction xs; constructor; [reflexivity | assumption].
  - rewrite IH1. apply IH2.
Qed.

Lemma Forall2_Qeq_In_l (xs ys : list Q) (x : Q) :
  Forall2 Qeq xs ys -> In x xs -> exists y, In y ys /\ x == y.
Proof.
  induction 1 as [|x' y' xs ys Hxy _ IH]; intros Hin; [destruct Hin|].
  destruct Hin as [<-|Hin].
  - exists y'. split; [left; reflexivity | exact Hxy].
  - destruct (IH Hin) as (y & Hy & E). exists y. split; [right|]; assumption.
Qed.

Lemma Forall2_Qeq_In_r (xs ys : list Q) (y : Q) :
  Forall2 Qeq xs ys -> In y ys -> exists x, In x xs /\ x == y.
Proof.
  induction 1 as [|x' y' xs ys Hxy _ IH]; intros Hin; [destruct Hin|].
  destruct Hin as [<-|Hin].
  - exists x'. split; [left; reflexivity | exact Hxy].
  - destruct (IH Hin) as (x & Hx & E). exists x. split; [right|]; assumption.
Qed.

(** C4: with a deconvoluted peak set whose intensities are 10, 5 and 2,
    met in any order, the total ion current is 17 and the base peak is a
    peak of the set with intensity 10, whatever the other tiers hold. *)
Theorem deconvoluted_tier_first (scan : scan_like)
    (peaks : list DeconvolutedPeak.t) (order : list Q) :
  deconvoluted_peak_set scan = Has peaks ->
  Permutation order [10; 5; 2] ->
  Forall2 Qeq (map DeconvolutedPeak.intensity peaks) order ->
  (exists tic, TICMethods._guess scan = Ok tic /\ tic == 17)
  /\ (exists p, BasePeakMethods._guess scan = Ok (BasePeakMethods.Fit p)
                /\ In p peaks /\ DeconvolutedPeak.intensity p == 10).
Proof.
  intros Hd Hperm Hi.
  unfold TICMethods._guess, BasePeakMethods._guess,
    TICMethods.deconvoluted, BasePeakMethods.deconvoluted.
  rewrite Hd. cbn [read TICMethods._peak_set_tic try_tier]. split.
  - eexists. split; [reflexivity|].
    unfold total. change (@peak_intensity DeconvolutedPeak.t _)
      with DeconvolutedPeak.intensity.
    rewrite (fold_plus_Forall2 _ _ Hi 0 0 (Qeq_refl 0)).
    rewrite (fold_plus_Permutation _ _ Hperm 0). reflexivity.
  - destruct peaks as [|p rest].
    { inversion Hi; subst. apply Permutation_nil in Hperm. discriminate. }
    cbn [BasePeakMethods._peak_set_bp try_tier].
    change (@peak_intensity DeconvolutedPeak.t _)
      with DeconvolutedPeak.intensity.
    destruct (max_by_spec DeconvolutedPeak.intensity rest p) as [Hin Hmax].
    set (best := BasePeakMethods.max_by DeconvolutedPeak.intensity p rest) in *.
    exists best. split; [reflexivity|]. split; [exact Hin|].
    apply Qle_antisym.
    + destruct (Forall2_Qeq_In_l _ _ (DeconvolutedPeak.intensity best) Hi)
        as (y & Hy & E); [apply in_map; exact Hin|].
      apply (Permutation_in _ Hperm) in Hy. rewrite E.
      destruct Hy as [<-|[<-|[<-|[]]]]; discriminate.
    + destruct (Forall2_Qeq_In_r _ _ 10 Hi) as (x & Hx & E).
      { apply (Permutation_in _ (Permutation_sym Hperm)). left. reflexivity. }
      apply in_map_iff in Hx. destruct Hx as (q & <- & Hq).
      rewrite <- E. apply Hmax. exact Hq.
Qed.

(** C7, as the code has it: on an object without any of the three tier
    attributes that iterates as a non-empty sequence of plain numbers, the
    base peak facade raises [TypeError]; only the total ion current facade
    reduces the numbers, to their sum. *)
Theorem base_peak_rejects_numbers (scan : scan_like) (xs : list Q) :
  deconvoluted_peak_set scan = Missing ->
  peak_set scan = Missing ->
  arrays scan = Missing ->
  xs <> [] ->
  points scan = Some (map ENumber xs) ->
  BasePeakMethods._guess scan = Raise TypeError
  /\ TICMethods._guess scan = Ok (total xs).
Proof.
  intros Hd Hp Ha Hx Hpts.
  unfold BasePeakMethods._guess, TICMethods._guess,
    BasePeakMethods.deconvoluted, BasePeakMethods.centroided,
    BasePeakMethods.raw, TICMethods.deconvoluted, TICMethods.centroided,
    TICMethods.raw, list_of_scan.
  rewrite Hd, Hp, Ha, Hpts. simpl.
  destruct xs as [|x xs]; [contradiction|]. split; [reflexivity|].
  change (ENumber x :: map ENumber xs) with (map ENumber (x :: xs)).
  apply simple_tic_numbers.
Qed.
End Facades.

(** ** Equality of precursor information records *)

Section PrecursorEquality.
Import PrecursorInformation.
Variable mass_charge_ratio : Q -> Z -> Q.

Local Abbreviation extracted_mz := (extracted_mz mass_charge_ratio).
Local Notation "a =? b" := (__eq__ mass_charge_ratio a (Some b)).

Lemma fit_test (a : t) :
  negb (Qeqb (extracted_neutral_mass a) 0) = true <-> has_fit a.
Proof.
  unfold has_fit. rewrite negb_true_iff, <- not_true_iff_false, Qeqb_eq.
  reflexivity.
Qed.

Lemma no_fit_test (a : t) :
  negb (Qeqb (extracted_neutral_mass a) 0) = false <-> ~ has_fit a.
Proof.
  rewrite <- fit_test. destruct (negb _); split; congruence.
Qed.

(** The m/z that a side of [__eq__] selects for itself. *)
Local Abbreviation selected_mz a :=
  (if negb (Qeqb (extracted_neutral_mass a) 0)
   then extracted_mz a else Ok (mz a)).

Lemma both_close_ok (u v : Q) :
  both_close (Ok u) (Ok v) <-> isclose u v = true.
Proof.
  split.
  - intros (u' & v' & [= <-] & [= <-] & H). exact H.
  - intros H. exists u, v. auto.
Qed.

Lemma both_close_raise_l (e : exn) (y : result Q) : ~ both_close (Raise e) y.
Proof. intros (u & v & H & _). discriminate. Qed.

Lemma both_close_raise_r (x : result Q) (e : exn) : ~ both_close x (Raise e).
Proof. intros (u & v & _ & H & _). discriminate. Qed.

(** What [__eq__] computes: same ids, and the mass and charge each side
    selects by its own fit test are close and equal. *)
Lemma eq_selected (a b : t) :
  (a =? b) = Ok true <->
  precursor_scan_id a = precursor_scan_id b
  /\ product_scan_id a = product_scan_id b
  /\ both_close (selected_mz a) (selected_mz b)
  /\ (if negb (Qeqb (extracted_neutral_mass a) 0)
      then extracted_charge a else charge a)
     = (if negb (Qeqb (extracted_neutral_mass b) 0)
        then extracted_charge b else charge b).
Proof.
  unfold __eq__.
  repeat case_bool_decide; simpl;
    try (split; [discriminate | tauto]).
  rewrite <- charge_eqb_eq.
  destruct (selected_mz a) as [u|e]; simpl;
    [|split; [discriminate|];
      intros (_ & _ & Hc & _); destruct (both_close_raise_l _ _ Hc)].
  destruct (selected_mz b) as [v|e]; simpl;
    [|split; [discriminate|];
      intros (_ & _ & Hc & _); destruct (both_close_raise_r _ _ Hc)].
  rewrite both_close_ok.
  destruct (isclose u v); simpl;
    [|split; [discriminate | intuition discriminate]].
  destruct (charge_eqb _ _); simpl;
    [tauto | split; [discriminate | intuition discriminate]].
Qed.

Lemma extracted_mz_exception (a : t) (e : exn) :
  extracted_mz a = Raise e -> e = ZeroDivisionError.
Proof.
  unfold PrecursorInformation.extracted_mz, call_mass_charge_ratio.
  destruct (extracted_charge a) as [|z]; simpl.
  - discriminate.
  - destruct (Z.eqb z 0 && charge_eqb (charge a) ChargeNotProvided); simpl;
      [discriminate|].
    destruct (Z.eqb z 0); congruence.
Qed.

Lemma eq_raises (a b : t) :
  (a =? b) = Raise ZeroDivisionError <->
  precursor_scan_id a = precursor_scan_id b
  /\ product_scan_id a = product_scan_id b
  /\ ((has_fit a /\ extracted_mz a = Raise ZeroDivisionError)
      \/ (has_fit b /\ extracted_mz b = Raise ZeroDivisionError)).
Proof.
  unfold __eq__.
  repeat case_bool_decide; simpl;
    try (split; [discriminate | tauto]).
  pose proof (fit_test a) as Fa. pose proof (no_fit_test a) as Na.
  pose proof (fit_test b) as Fb. pose proof (no_fit_test b) as Nb.
  pose proof (extracted_mz_exception a) as Ea.
  pose proof (extracted_mz_exception b) as Eb.
  destruct (negb (Qeqb (extracted_neutral_mass a) 0)),
           (negb (Qeqb (extracted_neutral_mass b) 0));
    destruct (extracted_mz a) as [u|ea]; destruct (extracted_mz b) as [v|eb];
    simpl;
    try rewrite (Ea ea eq_refl); try rewrite (Eb eb eq_refl);
    repeat match goal with
           | |- context [if ?c then _ else _] => destruct c
           end;
    intuition congruence.
Qed.
Lemma eq_exception (a b : t) (e : exn) :
  (a =? b) = Raise e -> e = ZeroDivisionError.
Proof.
  unfold __eq__.
  repeat case_bool_decide; simpl; try discriminate.
  pose proof (extracted_mz_exception a) as Ea.
  pose proof (extracted_mz_exception b) as Eb.
  destruct (negb (Qeqb (extracted_neutral_mass a) 0)),
           (negb (Qeqb (extracted_neutral_mass b) 0));
    destruct (extracted_mz a) as [u|ea]; destruct (extracted_mz b) as [v|eb];
    simpl;
    repeat match goal with
           | |- context [if ?c then _ else _] => destruct c
           end;
    try discriminate; intros [= <-]; auto.
Qed.

(** C5, as the code has it: the comparison of two records returns [True]
    exactly when their ids match and the mass and charge that each side
    selects by its own extracted mass (extracted values when it is
    non-zero, vendor values when it is zero) are close and equal; this
    includes the two mixed cases, in which a record with a fit equals one
    without. The comparison raises exactly when the ids match and reading
    [extracted_mz] raises on a side with a non-zero extracted mass, and
    then it raises [ZeroDivisionError]. *)
Theorem eq_characterised (a b : t) :
  ((a =? b) = Ok true <->
   precursor_scan_id a = precursor_scan_id b
   /\ product_scan_id a = product_scan_id b
   /\ ((has_fit a /\ has_fit b
        /\ both_close (extracted_mz a) (extracted_mz b)
        /\ extracted_charge a = extracted_charge b)
       \/ (~ has_fit a /\ ~ has_fit b
           /\ isclose (mz a) (mz b) = true
           /\ charge a = charge b)
       \/ (has_fit a /\ ~ has_fit b
           /\ both_close (extracted_mz a) (Ok (mz b))
           /\ extracted_charge a = charge b)
       \/ (~ has_fit a /\ has_fit b
           /\ both_close (Ok (mz a)) (extracted_mz b)
           /\ charge a = extracted_charge b)))
  /\ ((a =? b) = Raise ZeroDivisionError <->
      precursor_scan_id a = precursor_scan_id b
      /\ product_scan_id a = product_scan_id b
      /\ ((has_fit a /\ extracted_mz a = Raise ZeroDivisionError)
          \/ (has_fit b /\ extracted_mz b = Raise ZeroDivisionError)))
  /\ (forall e, (a =? b) = Raise e -> e = ZeroDivisionError).
Proof.
  split; [|split; [apply eq_raises | apply eq_exception]].
  rewrite eq_selected.
  pose proof (fit_test a) as Fa. pose proof (no_fit_test a) as Na.
  pose proof (fit_test b) as Fb. pose proof (no_fit_test b) as Nb.
  pose proof (both_close_ok (mz a) (mz b)) as Hok.
  destruct (negb (Qeqb (extracted_neutral_mass a) 0)),
           (negb (Qeqb (extracted_neutral_mass b) 0));
    intuition congruence.
Qed.

Lemma eq_none (a : t) : __eq__ mass_charge_ratio a None = Ok false.
Proof. reflexivity. Qed.
End PrecursorEquality.

(** C5 fails as stated: a link and its defaulted copy are equal, although
    only the copy has a non-zero extracted neutral mass. *)
Lemma defaulted_link_equals_original :
  PrecursorInformation.__eq__ averagine_mass_charge_ratio
    example_defaulted_link (Some example_link) = Ok true
  /\ has_fit example_defaulted_link
  /\ ~ has_fit example_link
  /\ ~ equal_as_specified averagine_mass_charge_ratio
         example_defaulted_link example_link.
Proof.
  assert (Hf : has_fit example_defaulted_link) by (vm_compute; discriminate).
  assert (Hn : ~ has_fit example_link)
    by (intros H; apply H; vm_compute; reflexivity).
  split; [vm_compute; reflexivity|]. split; [exact Hf|]. split; [exact Hn|].
  intros (_ & _ & [(_ & H & _) | (H & _)]); [exact (Hn H) | exact (H Hf)].
Qed.

(** ** Witnesses for the array and facade properties *)

Lemma arithmetic_drops_data_arrays_witness :
  RawDataArrays.data_arrays
    (RawDataArrays.__mul__ example_arrays_with_channel 3) = ∅
  /\ RawDataArrays.data_arrays (RawDataArrays.copy example_arrays_with_channel)
     = RawDataArrays.data_arrays example_arrays_with_channel.
Proof.
  assert (Hne : RawDataArrays.data_arrays example_arrays_with_channel ≠ ∅)
    by (vm_compute; discriminate).
  destruct (arithmetic_drops_data_arrays example_average_signal
              example_arrays_with_channel example_arrays 3
              Hne eq_refl eq_refl) as (Hmul & _ & _ & Hcopy & _).
  split; [exact Hmul | exact Hcopy].
Defined.

Lemma deconvoluted_tier_first_witness :
  (exists tic,
     TICMethods._guess example_processed_scan_unordered = Ok tic /\ tic == 17)
  /\ (exists p, BasePeakMethods._guess example_processed_scan_unordered
                = Ok (BasePeakMethods.Fit p)
                /\ In p [DeconvolutedPeak.mk 1300 1 2;
                         DeconvolutedPeak.mk 1000 1 10;
                         DeconvolutedPeak.mk 1200 2 5]
                /\ DeconvolutedPeak.intensity p == 10).
Proof.
  apply (deconvoluted_tier_first example_processed_scan_unordered _ [2; 10; 5]).
  - reflexivity.
  - apply perm_trans with [10; 2; 5]; [apply perm_swap|].
    apply perm_skip. apply perm_swap.
  - simpl. repeat constructor.
Defined.

Lemma base_peak_rejects_numbers_witness :
  BasePeakMethods._guess example_number_list = Raise TypeError
  /\ TICMethods._guess example_number_list = Ok (total [1; 3; 2]).
Proof.
  apply (base_peak_rejects_numbers example_number_list [1; 3; 2]);
    try reflexivity.
  discriminate.
Defined.

(** C7 fails as stated: a list of three numbers has none of the tiers,
    and the base peak facade answers no maximum for it but raises
    [TypeError], where the total ion current facade answers the sum 6. *)
Lemma base_peak_of_number_list_raises :
  deconvoluted_peak_set example_number_list = Missing
  /\ peak_set example_number_list = Missing
  /\ arrays example_number_list = Missing
  /\ points example_number_list = Some [ENumber 1; ENumber 3; ENumber 2]
  /\ BasePeakMethods._guess example_number_list = Raise TypeError
  /\ TICMethods._guess example_number_list = Ok 6.
Proof. repeat split. Qed.

(** ** Resolution of the monoisotopic peak *)

Section MonoisotopicPeak.
Import PrecursorInformation.
Variable neutral_mass_of : Q -> Z -> Q.
Variable mass_charge_ratio : Q -> Z -> Q.
Variable Kwargs : Type.
Variable pick_peaks : Scan.t -> Scan.t.
Variable has_peak : Scan.t -> Q -> Q -> option FittedPeak.t.
Variable between : list FittedPeak.t -> Q -> Q -> list FittedPeak.t.
Variable deconvolute_peaks :
  list FittedPeak.t -> list FittedPeak.t -> Z * Z -> Kwargs ->
  list DeconvolutedPeak.t * list (option DeconvolutedPeak.t).

Local Abbreviation find_monoisotopic_peak :=
  (find_monoisotopic_peak neutral_mass_of mass_charge_ratio Kwargs
     pick_peaks has_peak between deconvolute_peaks).
Local Abbreviation extracted_mz := (extracted_mz mass_charge_ratio).

Local Abbreviation picked := (picked pick_peaks).

(** Reading [extracted_mz] after [default] and after [extract]. *)
Lemma extracted_mz_defaulted (self : t) (c : Z) (as_orphan : bool) :
  charge self = ChargeInt c -> c <> 0%Z ->
  extracted_mz (default neutral_mass_of self as_orphan)
  = Ok (mass_charge_ratio (neutral_mass_of (mz self) c) c).
Proof.
  intros Hc Hnz. unfold PrecursorInformation.extracted_mz, default,
    neutral_mass, call_mass_charge_ratio.
  rewrite Hc. simpl.
  destruct (Z.eqb_spec c 0) as [E|_]; [contradiction | reflexivity].
Qed.

Lemma extracted_mz_defaulted_unknown (self : t) (as_orphan : bool) :
  charge self = ChargeNotProvided ->
  extracted_mz (default neutral_mass_of self as_orphan)
  = Ok (mass_charge_ratio (mz self) DEFAULT_CHARGE_WHEN_NOT_RESOLVED).
Proof.
  intros Hc. unfold PrecursorInformation.extracted_mz, default.
  rewrite Hc. reflexivity.
Qed.

Lemma extracted_mz_defaulted_zero (self : t) (as_orphan : bool) :
  charge self = ChargeInt 0 ->
  extracted_mz (default neutral_mass_of self as_orphan)
  = Raise ZeroDivisionError.
Proof.
  intros Hc. unfold PrecursorInformation.extracted_mz, default, neutral_mass.
  rewrite Hc. reflexivity.
Qed.

Lemma extracted_mz_extracted (self : t) (fit : DeconvolutedPeak.t) :
  DeconvolutedPeak.charge fit <> 0%Z ->
  extracted_mz (extract self fit None)
  = Ok (mass_charge_ratio (DeconvolutedPeak.neutral_mass fit)
          (DeconvolutedPeak.charge fit)).
Proof.
  intros Hnz. unfold PrecursorInformation.extracted_mz, extract,
    call_mass_charge_ratio. simpl.
  destruct (Z.eqb_spec (DeconvolutedPeak.charge fit) 0) as [E|_];
    [contradiction | reflexivity].
Qed.

Lemma extracted_mz_extracted_zero (self : t) (fit : DeconvolutedPeak.t) :
  DeconvolutedPeak.charge fit = 0%Z ->
  extracted_mz (extract self fit None)
  = match charge self with
    | ChargeNotProvided =>
        Ok (mass_charge_ratio (mz self) DEFAULT_CHARGE_WHEN_NOT_RESOLVED)
    | ChargeInt _ => Raise ZeroDivisionError
    end.
Proof.
  intros Hz. unfold PrecursorInformation.extracted_mz, extract,
    call_mass_charge_ratio. simpl. rewrite Hz.
  destruct (charge self); reflexivity.
Qed.


(** C6: without a precursor scan argument, when the link has no
    precursor scan id or the lookup answers [None], the call returns the
    bare [False] without raising and leaves the record as it was. *)
Theorem unresolvable_precursor_returns_false (self : t)
    (trust_charge_state : bool) (charge_range : option (Z * Z))
    (kwargs : Kwargs) :
  precursor_scan_id self = None \/ precursor self = Ok None ->
  find_monoisotopic_peak self trust_charge_state None charge_range kwargs
  = Ok (self, ReturnFalse).
Proof.
  intros H. unfold PrecursorInformation.find_monoisotopic_peak,
    resolve_precursor_scan.
  destruct (precursor_scan_id self) as [scan_id|] eqn:Hid; [|reflexivity].
  destruct H as [H|H]; [discriminate|]. rewrite H. reflexivity.
Qed.

(** An unbound link that still names a precursor scan fails in the
    lookup itself. *)
Lemma unbound_lookup_raises (self : t) (scan_id : string)
    (trust_charge_state : bool) (charge_range : option (Z * Z))
    (kwargs : Kwargs) :
  precursor_scan_id self = Some scan_id ->
  source self = None ->
  find_monoisotopic_peak self trust_charge_state None charge_range kwargs
  = Raise AttributeError.
Proof.
  intros Hid Hsrc. unfold PrecursorInformation.find_monoisotopic_peak,
    resolve_precursor_scan, precursor.
  rewrite Hid, Hsrc. reflexivity.
Qed.
End MonoisotopicPeak.



Lemma unresolvable_precursor_returns_false_witness :
  PrecursorInformation.find_monoisotopic_peak
    averagine_neutral_mass averagine_mass_charge_ratio unit
    example_pick_peaks example_has_peak example_between
    example_deconvolute_peaks example_unlinked true None None tt
  = Ok (example_unlinked, PrecursorInformation.ReturnFalse).
Proof.
  apply unresolvable_precursor_returns_false. left. reflexivity.
Defined.

(** ** The nearest index search *)

Lemma Qabs_cases (x : Q) :
  (0 <= x /\ Qabs x == x) \/ (x <= 0 /\ Qabs x == - x).
Proof.
  destruct (Qlt_le_dec x 0) as [H|H].
  - right. split; [lra|]. apply Qabs_neg. lra.
  - left. split; [exact H|]. apply Qabs_pos. exact H.
Qed.

(** Case analysis on the sign under every absolute value in sight. *)
Ltac abs_cases :=
  repeat match goal with
         | |- context [Qabs ?x] =>
             let Hs := fresh "Hs" in
             let Ha := fresh "Ha" in
             destruct (Qabs_cases x) as [[Hs Ha]|[Hs Ha]];
             revert Hs; generalize dependent (Qabs x); intros
         | H : context [Qabs ?x] |- _ =>
             let Hs := fresh "Hs" in
             let Ha := fresh "Ha" in
             destruct (Qabs_cases x) as [[Hs Ha]|[Hs Ha]];
             revert Hs; generalize dependent (Qabs x); intros
         end.

Lemma is_sorted_head (xs : list Q) (x : Q) (j : nat) :
  RawDataArrays.is_sorted (x :: xs) = true ->
  (j < length xs)%nat -> x <= nth j xs 0.
Proof.
  revert x j. induction xs as [|y ys IH]; intros x j Hs Hj; simpl in Hj; [lia|].
  simpl in Hs. apply andb_true_iff in Hs as [Hxy Hs]. apply Qleb_le in Hxy.
  destruct j as [|j]; simpl; [exact Hxy|].
  apply Qle_trans with y; [exact Hxy|]. apply IH; [exact Hs | lia].
Qed.

Lemma is_sorted_tail (xs : list Q) (x : Q) :
  RawDataArrays.is_sorted (x :: xs) = true -> RawDataArrays.is_sorted xs = true.
Proof.
  destruct xs as [|y ys]; [reflexivity|]. simpl.
  intros H. apply andb_true_iff in H as [_ H]. exact H.
Qed.

Lemma is_sorted_ascending (xs : list Q) (i j : nat) :
  RawDataArrays.is_sorted xs = true ->
  (i <= j)%nat -> (j < length xs)%nat -> nth i xs 0 <= nth j xs 0.
Proof.
  revert i j. induction xs as [|x xs IH]; intros i j Hs Hij Hj; simpl in Hj; [lia|].
  destruct i as [|i], j as [|j]; simpl; try lia.
  - apply Qle_refl.
  - apply (is_sorted_head xs x j Hs). lia.
  - apply IH; [exact (is_sorted_tail _ _ Hs) | lia | lia].
Qed.

Section FindMzCorrect.
Import RawDataArrays.
Variable self : t.
Variable q : Q.
Hypothesis Hsorted : is_sorted (mz self) = true.

Local Abbreviation n := (length (mz self)).
Local Abbreviation at_ := (at_ self).
Local Abbreviation tracks := (tracks self q).
Local Abbreviation within := (within self q).

Lemma ascending (i j : nat) : (i <= j)%nat -> (j < n)%nat -> at_ i <= at_ j.
Proof. intros Hij Hj. unfold RawDataArrays.at_. apply is_sorted_ascending; assumption. Qed.

Lemma within_bounds (i : nat) :
  within i <-> - tolerance < at_ i - q /\ at_ i - q < tolerance.
Proof. unfold RawDataArrays.within. apply Qabs_Qlt_condition. Qed.

Lemma update_spec (best : nat * Q) (i : nat) :
  (i < n)%nat -> tracks best ->
  tracks (update best i (at_ i - q))
  /\ snd (update best i (at_ i - q)) <= snd best
  /\ snd (update best i (at_ i - q)) <= Qabs (at_ i - q).
Proof.
  intros Hi Hb. unfold update.
  destruct (Qltb (Qabs (at_ i - q)) (snd best)) eqn:E.
  - apply Qltb_lt in E. simpl. split; [split; [exact Hi | reflexivity]|].
    split; [apply Qlt_le_weak; exact E | apply Qle_refl].
  - apply Qltb_ge in E. split; [exact Hb|]. split; [apply Qle_refl | exact E].
Qed.

Lemma scan_down_eq (i : nat) (best : nat * Q) :
  scan_down self q i best
  = if Qleb (at_ i - q) (- tolerance) then best
    else match i with
         | O => update best i (at_ i - q)
         | S i' => scan_down self q i' (update best i (at_ i - q))
         end.
Proof. destruct i; reflexivity. Qed.

(** The downward scan leaves a pair no farther from the query than any
    point at or below its entry index that lies above [q - 0.1]. *)
Lemma scan_down_spec (i : nat) :
  forall best, (i < n)%nat -> tracks best ->
    tracks (scan_down self q i best)
    /\ snd (scan_down self q i best) <= snd best
    /\ forall j, (j <= i)%nat -> - tolerance < at_ j - q ->
                 snd (scan_down self q i best) <= Qabs (at_ j - q).
Proof.
  induction i as [|i IH]; intros best Hi Hb; rewrite scan_down_eq.
  - destruct (Qleb (at_ 0 - q) (- tolerance)) eqn:E.
    + apply Qleb_le in E. split; [exact Hb|]. split; [apply Qle_refl|].
      intros j Hj Hlt. replace j with 0%nat in Hlt by lia. lra.
    + destruct (update_spec best 0 Hi Hb) as (Ht & Hle & Hle').
      split; [exact Ht|]. split; [exact Hle|].
      intros j Hj _. replace j with 0%nat by lia. exact Hle'.
  - destruct (Qleb (at_ (S i) - q) (- tolerance)) eqn:E.
    + apply Qleb_le in E. split; [exact Hb|]. split; [apply Qle_refl|].
      intros j Hj Hlt. pose proof (ascending j (S i) Hj Hi). lra.
    + destruct (update_spec best (S i) Hi Hb) as (Ht & Hle & Hle').
      destruct (IH _ ltac:(lia) Ht) as (Ht2 & Hle2 & Hmin).
      split; [exact Ht2|]. split; [eapply Qle_trans; eassumption|].
      intros j Hj Hlt. destruct (Nat.eq_dec j (S i)) as [->|Hne].
      * eapply Qle_trans; eassumption.
      * apply Hmin; [lia | exact Hlt].
Qed.

(** The upward scan, likewise, for the points from its entry index on
    that lie below [q + 0.1]. *)
Lemma scan_up_spec (k : nat) :
  forall i best, (i + k = n)%nat -> tracks best ->
    tracks (scan_up self q k i best)
    /\ snd (scan_up self q k i best) <= snd best
    /\ forall j, (i <= j)%nat -> (j < n)%nat -> at_ j - q < tolerance ->
                 snd (scan_up self q k i best) <= Qabs (at_ j - q).
Proof.
  induction k as [|k IH]; intros i best Hik Hb; simpl.
  - split; [exact Hb|]. split; [apply Qle_refl|]. intros j Hj Hn. lia.
  - destruct (Qleb tolerance (at_ i - q)) eqn:E.
    + apply Qleb_le in E. split; [exact Hb|]. split; [apply Qle_refl|].
      intros j Hj Hn Hlt. pose proof (ascending i j Hj Hn). lra.
    + assert (Hi : (i < n)%nat) by lia.
      destruct (update_spec best i Hi Hb) as (Ht & Hle & Hle').
      destruct (IH (S i) _ ltac:(lia) Ht) as (Ht2 & Hle2 & Hmin).
      split; [exact Ht2|]. split; [eapply Qle_trans; eassumption|].
      intros j Hj Hn Hlt. destruct (Nat.eq_dec j i) as [->|Hne].
      * eapply Qle_trans; eassumption.
      * apply Hmin; [lia | exact Hn | exact Hlt].
Qed.

(** Entered at a midpoint within the tolerance, the refinement answers an
    index within the tolerance that is nearest to the query among all the
    points within the tolerance. *)
Lemma refine_spec (mid : nat) :
  (mid < n)%nat -> within mid ->
  (refine self q mid < n)%nat
  /\ within (refine self q mid)
  /\ forall j, (j < n)%nat -> within j ->
               Qabs (at_ (refine self q mid) - q) <= Qabs (at_ j - q).
Proof.
  intros Hmid Hw. unfold refine.
  set (best0 := (mid, Qabs (at_ mid - q))).
  assert (Hb0 : tracks best0) by (split; [exact Hmid | reflexivity]).
  destruct (scan_down_spec mid best0 Hmid Hb0) as (Ht1 & Hle1 & Hmin1).
  set (best1 := scan_down self q mid best0) in *.
  destruct (scan_up_spec (n - mid) mid best1 ltac:(lia) Ht1)
    as (Ht2 & Hle2 & Hmin2).
  set (best2 := scan_up self q (n - mid) mid best1) in *.
  destruct Ht2 as [Hlt2 Heq2].
  split; [exact Hlt2|]. split.
  - unfold RawDataArrays.within in *. rewrite <- Heq2.
    eapply Qle_lt_trans; [exact Hle2|].
    eapply Qle_lt_trans; [exact Hle1|]. exact Hw.
  - intros j Hj Hwj. rewrite <- Heq2.
    apply within_bounds in Hwj as [Hlo Hhi].
    destruct (Nat.le_gt_cases j mid) as [Hle|Hgt].
    + eapply Qle_trans; [exact Hle2|]. apply Hmin1; assumption.
    + apply Hmin2; [lia | exact Hj | exact Hhi].
Qed.
Lemma midpoint_bounds (lo hi : nat) :
  (lo < hi)%nat ->
  (lo <= (hi + lo) / 2)%nat /\ ((hi + lo) / 2 < hi)%nat
  /\ ((hi - lo)%nat <> 1%nat -> (lo < (hi + lo) / 2)%nat)
  /\ ((hi - lo)%nat = 1%nat -> ((hi + lo) / 2)%nat = lo).
Proof.
  intros H. repeat split.
  - apply Nat.div_le_lower_bound; lia.
  - apply Nat.Div0.div_lt_upper_bound; lia.
  - intros Hw. apply Nat.div_le_lower_bound; lia.
  - intros Hw. apply Nat.le_antisymm.
    + apply Nat.lt_succ_r. apply Nat.Div0.div_lt_upper_bound. lia.
    + apply Nat.div_le_lower_bound; lia.
Qed.

Lemma outside_tolerance (e : Q) :
  Qltb (Qabs e) tolerance = false ->
  (Qltb 0 e = true -> tolerance <= e) /\ (Qltb 0 e = false -> e <= - tolerance).
Proof.
  intros H. apply Qltb_ge in H. split; intros Hs.
  - apply Qltb_lt in Hs. abs_cases; lra.
  - apply Qltb_ge in Hs. abs_cases; lra.
Qed.

(** The search loop, entered with a window [lo < hi] whose upper part is
    known to lie at or above [q + 0.1] and whose lower end, once moved, at
    or below [q - 0.1]: it answers within [hi - lo] rounds, either from the
    refinement or from a window of one element when no point of the array is
    within the tolerance. *)
Lemma find_mz_loop_spec (fuel : nat) :
  forall lo hi,
    (lo < hi)%nat -> (hi <= n)%nat -> (hi - lo <= fuel)%nat ->
    (lo = 0%nat \/ at_ lo - q <= - tolerance) ->
    (forall j, (hi <= j)%nat -> (j < n)%nat -> tolerance <= at_ j - q) ->
    exists r,
      find_mz_loop self q fuel lo hi = Some r /\ (r < n)%nat
      /\ ((within r
           /\ forall j, (j < n)%nat -> within j ->
                        Qabs (at_ r - q) <= Qabs (at_ j - q))
          \/ ((forall j, (j < n)%nat -> ~ within j)
              /\ narrows self q (lo, hi) (r, S r)
              /\ (r = 0%nat \/ at_ r - q <= - tolerance)
              /\ forall j, (S r <= j)%nat -> (j < n)%nat ->
                           tolerance <= at_ j - q)).
Proof.
  induction fuel as [|fuel IH]; intros lo hi Hlt Hhi Hfuel Hlo Hup; [lia|].
  cbn [find_mz_loop].
  destruct (Nat.eqb_spec hi lo) as [|Hne]; [lia|]. cbn [negb].
  set (mid := ((hi + lo) / 2)%nat).
  destruct (midpoint_bounds lo hi Hlt) as (Hmid1 & Hmid2 & Hmid3 & Hmid4).
  fold mid in Hmid1, Hmid2, Hmid3, Hmid4.
  destruct (Qltb (Qabs (at_ mid - q)) tolerance) eqn:Enear.
  - (* the midpoint is within the tolerance *)
    apply Qltb_lt in Enear.
    destruct (refine_spec mid ltac:(lia) Enear) as (Hr & Hw & Hmin).
    exists (refine self q mid). split; [reflexivity|]. split; [exact Hr|].
    left. split; assumption.
  - destruct (outside_tolerance _ Enear) as [Hpos Hneg].
    destruct (Nat.eqb_spec (hi - lo) 1) as [Hone|Hwide].
    + (* the window holds one element *)
      specialize (Hmid4 Hone). assert (hi = S lo) by lia.
      exists mid. split; [reflexivity|]. split; [lia|]. right.
      subst hi. rewrite Hmid4 in *.
      split; [|split; [constructor | split; assumption]].
      intros j Hj Hw. apply within_bounds in Hw as [Hw1 Hw2].
      destruct (Nat.le_gt_cases (S lo) j) as [Hge|Hle].
      * pose proof (Hup j Hge Hj). lra.
      * destruct Hlo as [->|Hlo].
        -- replace j with 0%nat in * by lia.
           apply Qltb_ge in Enear. abs_cases; lra.
        -- pose proof (ascending j lo ltac:(lia) ltac:(lia)). lra.
    + destruct (Qltb 0 (at_ mid - q)) eqn:Esign.
      * (* hi = mid *)
        specialize (Hpos eq_refl).
        specialize (Hmid3 Hwide).
        destruct (IH lo mid) as (r & Hr & Hrn & Hcases);
          [lia | lia | lia | exact Hlo | |].
        { intros j Hj Hjn. pose proof (ascending mid j Hj Hjn). lra. }
        exists r. split; [exact Hr|]. split; [exact Hrn|].
        destruct Hcases as [Hnear | (Hnone & Hnar & Hrest)]; [left; exact Hnear|].
        right. split; [exact Hnone|]. split; [|exact Hrest].
        apply narrows_hi; assumption.
      * (* lo = mid *)
        specialize (Hneg eq_refl).
        destruct (IH mid hi) as (r & Hr & Hrn & Hcases);
          [lia | lia | lia | right; exact Hneg | exact Hup |].
        exists r. split; [exact Hr|]. split; [exact Hrn|].
        destruct Hcases as [Hnear | (Hnone & Hnar & Hrest)]; [left; exact Hnear|].
        right. split; [exact Hnone|]. split; [|exact Hrest].
        apply narrows_lo; assumption.
Qed.

(** The search always answers: with [len(mz) + 1] rounds of fuel the
    loop has returned. *)
Lemma find_mz_returns : exists r, find_mz self q = Some r.
Proof.
  unfold find_mz. destruct (Nat.eq_dec n 0%nat) as [E|E].
  - rewrite E. exists 0%nat. reflexivity.
  - destruct (find_mz_loop_spec (S n) 0%nat n) as (r & Hr & _);
      [lia | lia | lia | left; reflexivity | intros; lia |].
    exists r. exact Hr.
Qed.

(** C2: on a sorted axis and for a query within its range, the search
    answers an index of the array; when some point lies within 0.1 of the
    query, the answer is within 0.1 and nearest to the query among all such
    points; when no point does, the answer is the single element [r] of the
    window [(r, r + 1)] that the search has narrowed to, the last point at
    or below [q - 0.1]. *)
Theorem find_mz_nearest :
  mz self <> [] ->
  at_ 0%nat <= q -> q <= at_ (n - 1)%nat ->
  exists r,
    find_mz self q = Some r /\ (r < n)%nat
    /\ ((exists j, (j < n)%nat /\ within j) ->
        within r
        /\ forall j, (j < n)%nat -> within j ->
                     Qabs (at_ r - q) <= Qabs (at_ j - q))
    /\ ((forall j, (j < n)%nat -> ~ within j) ->
        narrows self q (0%nat, n) (r, S r)
        /\ at_ r <= q - tolerance
        /\ ((S r < n)%nat -> q + tolerance <= at_ (S r))).
Proof.
  intros Hne Hlow Hhigh.
  assert (Hn : (0 < n)%nat) by (destruct (mz self); [contradiction | simpl; lia]).
  destruct (find_mz_loop_spec (S n) 0%nat n) as (r & Hr & Hrn & Hcases);
    [lia | lia | lia | left; reflexivity | intros; lia |].
  exists r. split; [exact Hr|]. split; [exact Hrn|].
  destruct Hcases as [[Hw Hmin] | (Hnone & Hnar & Hr0 & Hrest)].
  - split; [intros _; split; assumption|].
    intros Hnone. destruct (Hnone r Hrn Hw).
  - split; [intros (j & Hj & Hw); destruct (Hnone j Hj Hw)|].
    intros _. split; [exact Hnar|]. split.
    + destruct Hr0 as [->|Hr0]; [|lra].
      pose proof (Hnone 0%nat Hn) as H0. rewrite within_bounds in H0.
      destruct (Qlt_le_dec (- tolerance) (at_ 0 - q)) as [Hgt|Hle]; [|lra].
      exfalso. apply H0. split; [exact Hgt|]. unfold tolerance in *. lra.
    + intros Hs. pose proof (Hrest (S r) ltac:(lia) Hs). lra.
Qed.
End FindMzCorrect.

(** Whatever the order of the axis, the search returns within
    [hi - lo + 1] rounds from a window [lo <= hi]. *)
Lemma find_mz_loop_terminates (self : RawDataArrays.t) (q : Q) (fuel : nat) :
  forall lo hi,
    (lo <= hi)%nat -> (hi - lo < fuel)%nat ->
    exists r, RawDataArrays.find_mz_loop self q fuel lo hi = Some r.
Proof.
  induction fuel as [|fuel IH]; intros lo hi Hle Hfuel; [lia|].
  cbn [RawDataArrays.find_mz_loop].
  destruct (Nat.eqb_spec hi lo) as [|Hne]; cbn [negb]; [eauto|].
  destruct (midpoint_bounds lo hi ltac:(lia)) as (H1 & H2 & H3 & _).
  destruct (Qltb _ RawDataArrays.tolerance); [eauto|].
  destruct (Nat.eqb_spec (hi - lo) 1) as [|Hwide]; [eauto|].
  specialize (H3 Hwide).
  destruct (Qltb 0 _); apply IH; lia.
Qed.

Lemma find_mz_terminates (self : RawDataArrays.t) (q : Q) :
  exists r, RawDataArrays.find_mz self q = Some r.
Proof. apply find_mz_loop_terminates; lia. Qed.

Lemma between_mz_terminates (self : RawDataArrays.t) (low high : Q) :
  exists r, RawDataArrays.between_mz self low high = Some r.
Proof.
  unfold RawDataArrays.between_mz.
  destruct (find_mz_terminates self low) as [i ->].
  destruct (find_mz_terminates self high) as [j ->].
  eauto.
Qed.

Lemma find_mz_nearest_witness :
  exists r,
    RawDataArrays.find_mz example_arrays (203 # 100) = Some r
    /\ (r < 3)%nat
    /\ RawDataArrays.within example_arrays (203 # 100) r.
Proof.
  destruct (find_mz_nearest example_arrays (203 # 100)) as (r & Hr & Hlt & Hnear & _).
  - reflexivity.
  - discriminate.
  - vm_compute. discriminate.
  - vm_compute. discriminate.
  - exists r. split; [exact Hr|]. split; [exact Hlt|].
    apply Hnear. exists 1%nat. split; [simpl; lia|]. vm_compute. reflexivity.
Defined.

(** ** Slicing between two m/z values *)

(** C3: on the sorted axis [1, 2, 2.05] the slice between 1 and 2.03
    keeps the point at 2.05, which lies above the upper bound: the search
    for [high] answers the nearest index, and only the lower index is
    corrected afterwards. *)
Theorem between_mz_keeps_point_above_high :
  RawDataArrays.is_sorted (RawDataArrays.mz example_arrays) = true
  /\ 1 <= 203 # 100
  /\ RawDataArrays.find_mz example_arrays (203 # 100) = Some 2%nat
  /\ RawDataArrays.between_mz example_arrays 1 (203 # 100)
     = Some (Ok (RawDataArrays.mk [1; 2; 41 # 20] [10; 20; 30] ∅))
  /\ 203 # 100 < 41 # 20.
Proof.
  split; [reflexivity|]. split; [discriminate|]. split; [reflexivity|].
  split; [reflexivity|]. reflexivity.
Qed.

(** * Further properties of the modelled code *)

(** ** Raw arrays: equality and addition *)

Lemma isclose_eq (x y : Q) : x == y -> isclose x y = true.
Proof.
  intros H. unfold isclose. apply Qleb_le.
  assert (E : x - y == 0) by lra.
  rewrite E. change (Qabs 0) with 0.
  pose proof (Qabs_nonneg y). unfold atol, rtol. lra.
Qed.

Lemma isclose_refl (x : Q) : isclose x x = true.
Proof. apply isclose_eq. reflexivity. Qed.

Lemma allclose_eq (xs ys : list Q) :
  Forall2 Qeq xs ys -> allclose xs ys = Ok true.
Proof.
  intros H. unfold allclose.
  rewrite broadcast_same_length by (eapply Forall2_length; exact H).
  simpl. f_equal. induction H as [|x y xs ys Hxy _ IH]; simpl; [reflexivity|].
  rewrite (isclose_eq _ _ Hxy). exact IH.
Qed.

Lemma Forall2_Qeq_refl (xs : list Q) : Forall2 Qeq xs xs.
Proof. induction xs; constructor; [reflexivity | assumption]. Qed.

Lemma zip_plus_comm (xs ys : list Q) :
  Forall2 Qeq (zip_with_same Qplus xs ys) (zip_with_same Qplus ys xs).
Proof.
  revert ys. induction xs as [|x xs IH]; intros [|y ys]; simpl; try constructor.
  - apply Qplus_comm.
  - apply IH.
Qed.

Section ArraysAlgebra.
Import RawDataArrays.
Variable average_signal : list t -> list Q * list Q.

(** X1: an array is equal to itself and to its copy, whatever it holds. *)
Theorem arrays_eq_reflexive (a : t) :
  __eq__ a (PyArrays a) = Ok true
  /\ __eq__ a (PyArrays (copy a)) = Ok true
  /\ __ne__ a (PyArrays a) = Ok false.
Proof.
  assert (H : __eq__ a (PyArrays a) = Ok true).
  { unfold __eq__, __eq__body. simpl.
    rewrite !allclose_eq by apply Forall2_Qeq_refl. reflexivity. }
  split; [exact H|]. split; [exact H|].
  unfold __ne__. rewrite H. reflexivity.
Qed.

(** X2: comparing two arrays never raises; when the axes have different
    lengths and neither has length one, the answer is [False]. *)
Theorem arrays_eq_never_raises (a b : t) :
  (exists v, __eq__ a (PyArrays b) = Ok v)
  /\ (length (mz a) <> length (mz b) ->
      length (mz a) <> 1%nat -> length (mz b) <> 1%nat ->
      __eq__ a (PyArrays b) = Ok false).
Proof.
  split; [|apply eq_mismatched_axes].
  unfold __eq__, __eq__body, allclose. simpl.
  destruct (broadcast isclose (mz a) (mz b)) as [cs|[]] eqn:E;
    try (unfold broadcast in E;
         destruct (Nat.eqb _ _), (mz a) as [|? [|? ?]], (mz b) as [|? [|? ?]];
         discriminate).
  - simpl. destruct (forallb _ cs); [|eauto].
    destruct (broadcast isclose (intensity a) (intensity b)) as [ds|[]] eqn:E';
      simpl; eauto;
      unfold broadcast in E';
      destruct (Nat.eqb _ _), (intensity a) as [|? [|? ?]],
        (intensity b) as [|? [|? ?]];
      discriminate.
  - simpl. eauto.
Qed.

(** X3: on one and the same axis, addition commutes: both orders take
    the summing branch, keep the axis, and give the pointwise sums, so the
    two results are equal arrays. *)
Theorem add_same_axis_commutes (a b : t) :
  mz a = mz b ->
  length (mz a) = length (intensity a) ->
  length (mz b) = length (intensity b) ->
  exists r1 r2,
    __add__ average_signal a b = Ok r1
    /\ __add__ average_signal b a = Ok r2
    /\ mz r1 = mz a /\ mz r2 = mz a
    /\ intensity r1 = zip_with_same Qplus (intensity a) (intensity b)
    /\ Forall2 Qeq (intensity r1) (intensity r2)
    /\ __eq__ r1 (PyArrays r2) = Ok true.
Proof.
  intros Hmz Ha Hb.
  assert (Hab : allclose (mz a) (mz b) = Ok true)
    by (rewrite Hmz; apply allclose_eq, Forall2_Qeq_refl).
  assert (Hba : allclose (mz b) (mz a) = Ok true)
    by (rewrite Hmz; apply allclose_eq, Forall2_Qeq_refl).
  eexists _, _.
  split; [apply add_same_axis; congruence|].
  split; [apply add_same_axis; congruence|].
  simpl. split; [reflexivity|]. split; [congruence|]. split; [reflexivity|].
  split; [apply zip_plus_comm|].
  unfold __eq__, __eq__body. simpl.
  rewrite Hmz, allclose_eq by apply Forall2_Qeq_refl. simpl.
  rewrite allclose_eq by apply zip_plus_comm. reflexivity.
Qed.
End ArraysAlgebra.

(** ** The search and the slice on any axis *)

Section FindMzBounds.
Import RawDataArrays.
Variable self : t.
Variable q : Q.

Local Abbreviation n := (length (mz self)).

Lemma scan_down_tracks (i : nat) :
  forall best, (i < n)%nat -> tracks self q best ->
               tracks self q (scan_down self q i best).
Proof.
  induction i as [|i IH]; intros best Hi Hb; rewrite scan_down_eq;
    destruct (Qleb _ _); try exact Hb.
  - apply update_spec; assumption.
  - apply IH; [lia|]. apply update_spec; assumption.
Qed.

Lemma scan_up_tracks (k : nat) :
  forall i best, (i + k = n)%nat -> tracks self q best ->
                 tracks self q (scan_up self q k i best).
Proof.
  induction k as [|k IH]; intros i best Hik Hb; simpl; [exact Hb|].
  destruct (Qleb _ _); [exact Hb|].
  apply IH; [lia|]. apply update_spec; [lia | exact Hb].
Qed.

Lemma refine_in_bounds (mid : nat) :
  (mid < n)%nat -> (refine self q mid < n)%nat.
Proof.
  intros Hmid. unfold refine.
  apply scan_up_tracks; [lia|]. apply scan_down_tracks; [exact Hmid|].
  split; [exact Hmid | reflexivity].
Qed.

Lemma find_mz_loop_in_bounds (fuel : nat) :
  forall lo hi r,
    (lo <= hi)%nat -> (hi <= n)%nat -> (0 < n)%nat ->
    find_mz_loop self q fuel lo hi = Some r -> (r < n)%nat.
Proof.
  induction fuel as [|fuel IH]; intros lo hi r Hle Hhi Hn; [discriminate|].
  cbn [find_mz_loop].
  destruct (Nat.eqb_spec hi lo) as [|Hne]; cbn [negb];
    [intros [= <-]; exact Hn|].
  destruct (midpoint_bounds lo hi ltac:(lia)) as (H1 & H2 & _ & _).
  set (mid := ((hi + lo) / 2)%nat) in *.
  destruct (Qltb _ tolerance).
  - intros [= <-]. apply refine_in_bounds. lia.
  - destruct (Nat.eqb _ 1); [intros [= <-]; lia|].
    destruct (Qltb 0 _); apply IH; lia.
Qed.

(** X4: whatever the order of the axis, the search answers; on an empty
    array it answers 0, and otherwise an index of the array. *)
Theorem find_mz_in_bounds :
  exists r,
    find_mz self q = Some r
    /\ (mz self = [] -> r = 0%nat)
    /\ (mz self <> [] -> (r < n)%nat).
Proof.
  destruct (find_mz_terminates self q) as [r Hr].
  exists r. split; [exact Hr|]. split.
  - intros E. unfold find_mz in Hr. rewrite E in Hr. simpl in Hr. congruence.
  - intros Hne. apply (find_mz_loop_in_bounds (S n) 0%nat n r); try lia.
    + destruct (mz self); [contradiction | simpl; lia].
    + exact Hr.
Qed.
End FindMzBounds.

(** X5: slicing an array without points fails with [IndexError], on
    reading [self.mz[0]]. *)
Theorem between_mz_of_empty (self : RawDataArrays.t) (low high : Q) :
  RawDataArrays.mz self = [] ->
  RawDataArrays.between_mz self low high = Some (Raise IndexError).
Proof.
  intros E. unfold RawDataArrays.between_mz, RawDataArrays.find_mz.
  rewrite E. reflexivity.
Qed.

(** ** The slice on a strictly increasing axis *)

Lemma increasing_sorted (xs : list Q) :
  is_increasing xs = true -> RawDataArrays.is_sorted xs = true.
Proof.
  induction xs as [|x [|y ys] IH]; try reflexivity.
  intros H. cbn [is_increasing] in H. apply andb_true_iff in H as [Hxy H].
  cbn [RawDataArrays.is_sorted]. apply andb_true_iff. split; [|apply IH, H].
  apply Qleb_le. apply Qltb_lt in Hxy. lra.
Qed.

Lemma increasing_strict (xs : list Q) (i j : nat) :
  is_increasing xs = true ->
  (i < j)%nat -> (j < length xs)%nat -> nth i xs 0 < nth j xs 0.
Proof.
  intros Hinc Hij Hj.
  assert (Hstep : forall k, (S k < length xs)%nat -> nth k xs 0 < nth (S k) xs 0).
  { clear i j Hij Hj. induction xs as [|x [|y ys] IH]; intros k Hk;
      simpl in Hk; try lia.
    cbn [is_increasing] in Hinc. apply andb_true_iff in Hinc as [Hxy Hinc].
    destruct k as [|k]; [apply Qltb_lt in Hxy; exact Hxy|].
    apply (IH Hinc k). simpl. lia. }
  induction j as [|j IH]; [lia|].
  destruct (Nat.eq_dec i j) as [->|Hne]; [apply Hstep; exact Hj|].
  apply Qlt_trans with (nth j xs 0); [apply IH; lia | apply Hstep; exact Hj].
Qed.

Lemma index_nth (xs : list Q) (i : nat) :
  (i < length xs)%nat -> index xs i = Ok (nth i xs 0).
Proof.
  intros H. unfold index.
  destruct (xs !! i) as [x|] eqn:E.
  - rewrite (nth_lookup_Some _ _ 0 _ E). reflexivity.
  - apply lookup_ge_None in E. lia.
Qed.

Lemma in_slice (xs : list Q) (i j : nat) (x : Q) :
  In x (slice i j xs) ->
  exists k, (i <= k)%nat /\ (k < j)%nat /\ (k < length xs)%nat /\ nth k xs 0 = x.
Proof.
  unfold slice. intros H. apply (In_nth _ _ 0) in H as (m & Hm & Hx).
  rewrite length_firstn, length_skipn in Hm.
  rewrite nth_firstn in Hx.
  destruct (Nat.ltb_spec m (j - i)) as [Hlt|Hge]; [|lia].
  rewrite nth_skipn in Hx. exists (i + m)%nat. repeat split; try lia. exact Hx.
Qed.

Lemma slice_length {A B : Type} (i j : nat) (xs : list A) (ys : list B) :
  length xs = length ys -> length (slice i j xs) = length (slice i j ys).
Proof.
  intros H. unfold slice. rewrite !length_firstn, !length_skipn, H. reflexivity.
Qed.

Section SliceBounds.
Import RawDataArrays.
Variable self : t.
Hypothesis Hinc : is_increasing (mz self) = true.
Hypothesis Hne : mz self <> [].

Local Abbreviation n := (length (mz self)).
Local Abbreviation at_ := (at_ self).

(** The two ways in which the search ends, for any query. *)
Lemma find_mz_cases (q : Q) :
  exists r,
    find_mz self q = Some r /\ (r < n)%nat
    /\ ((within self q r
         /\ forall j, (j < n)%nat -> within self q j ->
                      Qabs (at_ r - q) <= Qabs (at_ j - q))
        \/ ((r = 0%nat \/ at_ r - q <= - tolerance)
            /\ forall j, (S r <= j)%nat -> (j < n)%nat ->
                         tolerance <= at_ j - q)).
Proof.
  assert (Hn : (0 < n)%nat) by (destruct (mz self); [contradiction | simpl; lia]).
  destruct (find_mz_loop_spec self q (increasing_sorted _ Hinc) (S n) 0%nat n)
    as (r & Hr & Hrn & Hcases);
    [lia | lia | lia | left; reflexivity | intros; lia |].
  exists r. split; [exact Hr|]. split; [exact Hrn|].
  destruct Hcases as [Hnear | (_ & _ & H0 & Hrest)]; [left; exact Hnear|].
  right. split; assumption.
Qed.

(** X6: on a non-empty, strictly increasing axis the slice is returned
    (no exception), its two columns have the same length, and each of its
    points lies at or above [low] and less than 0.1 above [high]. *)
Theorem between_mz_bounds (low high : Q) :
  length (mz self) = length (intensity self) ->
  exists r,
    between_mz self low high = Some (Ok r)
    /\ length (mz r) = length (intensity r)
    /\ forall x, In x (mz r) -> low <= x /\ x < high + tolerance.
Proof.
  intros Hlen.
  pose proof (increasing_sorted _ Hinc) as Hsorted.
  destruct (find_mz_cases low) as (i0 & Hi0 & Hi0n & Ci).
  destruct (find_mz_cases high) as (j0 & Hj0 & Hj0n & Cj).
  unfold between_mz. rewrite Hi0, Hj0, (index_nth _ _ Hi0n). cbn [bind].
  fold (at_ i0).
  set (i := if negb (Qleb low (at_ i0) && Qleb (at_ i0) high)
            then (i0 + 1)%nat else i0).
  eexists. split; [reflexivity|]. cbn [mz intensity __new__].
  split; [apply slice_length; exact Hlen|].
  intros x Hx. apply in_slice in Hx as (k & Hik & Hkj & Hkn & <-).
  fold (at_ k).
  assert (Hi0i : (i0 <= i)%nat) by (subst i; destruct (negb _); lia).
  pose proof (ascending self Hsorted i0 k ltac:(lia) Hkn) as Hi0k.
  pose proof (ascending self Hsorted k j0 ltac:(lia) Hj0n) as Hkj0.
  assert (Htest : (i = i0 /\ low <= at_ i0 /\ at_ i0 <= high)
                  \/ (i = S i0 /\ (at_ i0 < low \/ high < at_ i0))).
  { subst i. destruct (Qleb low (at_ i0) && Qleb (at_ i0) high) eqn:T; cbn [negb].
    - apply andb_true_iff in T as [T1 T2]. apply Qleb_le in T1, T2. auto.
    - right. split; [lia|]. apply andb_false_iff in T as [T|T];
        apply Qleb_gt in T; auto. }
  split.
  - (* the lower bound *)
    destruct (Qlt_le_dec (at_ i0) low) as [Hbelow|Hge]; [|lra].
    destruct Htest as [(_ & Hlow & _) | (Hi & _)]; [lra|].
    destruct Ci as [[Hw Hmin] | [_ Hrest]].
    + destruct (Qlt_le_dec (at_ k) low) as [Hk|Hk]; [|exact Hk].
      exfalso.
      pose proof (increasing_strict _ i0 k Hinc ltac:(lia) Hkn) as Hstrict.
      fold (at_ i0) (at_ k) in Hstrict.
      apply within_bounds in Hw as [Hw1 Hw2].
      assert (Hwk : within self low k).
      { apply within_bounds. unfold tolerance in *. split; lra. }
      specialize (Hmin k Hkn Hwk).
      revert Hmin. abs_cases; lra.
    + pose proof (Hrest k ltac:(lia) Hkn). unfold tolerance in *. lra.
  - (* the upper bound *)
    destruct Cj as [[Hw _] | [[Hj0z | Hj0low] _]].
    + apply within_bounds in Hw as [_ Hw]. lra.
    + assert (k = 0%nat) by lia. assert (i0 = 0%nat) by lia. subst k i0.
      destruct Htest as [(_ & _ & Hhigh) | (Hi & _)]; [|lia].
      unfold tolerance. lra.
    + unfold tolerance in *. lra.
Qed.
End SliceBounds.

(** ** The outcomes of the monoisotopic peak resolution *)

Section ResolutionOutcomes.
Import PrecursorInformation.
Variable neutral_mass_of : Q -> Z -> Q.
Variable mass_charge_ratio : Q -> Z -> Q.
Variable Kwargs : Type.
Variable pick_peaks : Scan.t -> Scan.t.
Variable has_peak : Scan.t -> Q -> Q -> option FittedPeak.t.
Variable between : list FittedPeak.t -> Q -> Q -> list FittedPeak.t.
Variable deconvolute_peaks :
  list FittedPeak.t -> list FittedPeak.t -> Z * Z -> Kwargs ->
  list DeconvolutedPeak.t * list (option DeconvolutedPeak.t).

Local Abbreviation find_monoisotopic_peak :=
  (find_monoisotopic_peak neutral_mass_of mass_charge_ratio Kwargs
     pick_peaks has_peak between deconvolute_peaks).
Local Abbreviation extracted_mz := (extracted_mz mass_charge_ratio).
Local Abbreviation default := (default neutral_mass_of).
Local Abbreviation picked := (picked pick_peaks).

(** X7: when the precursor scan has no peak near the vendor m/z, or has
    one but the deconvolution returns no fit for it, the record is
    defaulted and marked as an orphan; for a vendor charge that is unknown
    or other than 0 the call then answers [(extracted_mz, False)], with the
    fitted peak left as it was, for either value of [trust_charge_state];
    for the vendor charge 0 reading [extracted_mz] raises
    [ZeroDivisionError]. *)
Theorem no_peak_or_no_fit_orphans (self : t) (trust_charge_state : bool)
    (precursor_scan : option Scan.t) (scan : Scan.t)
    (charge_range : option (Z * Z)) (kwargs : Kwargs) :
  resolve_precursor_scan self precursor_scan = Ok (Some scan) ->
  has_peak (picked scan) (mz self) reference_tolerance = None
  \/ (exists ref_peak peak_set general others,
        has_peak (picked scan) (mz self) reference_tolerance = Some ref_peak
        /\ Scan.peak_set (picked scan) = Some peak_set
        /\ deconvolute_peaks
             (between peak_set (mz self - 3) (mz self + 6)) [ref_peak]
             (effective_charge_range (picked scan) charge_range) kwargs
           = (general, None :: others)) ->
  (charge self <> ChargeInt 0 ->
   exists self' updated_mz,
     find_monoisotopic_peak self trust_charge_state precursor_scan
       charge_range kwargs
     = Ok (self', ReturnPair updated_mz false)
     /\ extracted_mz self' = Ok updated_mz
     /\ self' = default self true
     /\ orphan self' = true
     /\ defaulted self' = true
     /\ extracted_peak self' = extracted_peak self
     /\ extracted_intensity self' = intensity self
     /\ extracted_charge self' = charge self)
  /\ (charge self = ChargeInt 0 ->
      find_monoisotopic_peak self trust_charge_state precursor_scan
        charge_range kwargs
      = Raise ZeroDivisionError).
Proof.
  intros Hres Hcase.
  assert (Hcall :
    find_monoisotopic_peak self trust_charge_state precursor_scan
      charge_range kwargs
    = bind (extracted_mz (default self true))
        (fun m => Ok (default self true, ReturnPair m false))).
  { unfold PrecursorInformation.find_monoisotopic_peak.
    rewrite Hres. cbn [bind].
    destruct Hcase as [Hnone | (ref & ps & g & o & Href & Hps & Hdec)].
    - rewrite Hnone. reflexivity.
    - rewrite Href, Hps. cbn [bind]. rewrite Hdec. reflexivity. }
  rewrite Hcall. split.
  - intros Hnz.
    assert (Hmz : exists m, extracted_mz (default self true) = Ok m).
    { destruct (charge self) as [|c] eqn:Hc.
      - eexists. apply extracted_mz_defaulted_unknown. exact Hc.
      - eexists. apply extracted_mz_defaulted; [exact Hc | congruence]. }
    destruct Hmz as [m Hmz]. exists (default self true), m.
    split; [rewrite Hmz; reflexivity|]. split; [exact Hmz|].
    unfold PrecursorInformation.default.
    destruct (charge self); repeat split.
  - intros Hz. rewrite (extracted_mz_defaulted_zero _ _ _ _ Hz). reflexivity.
Qed.

(** X8: a fit is accepted when the vendor charge is unknown, when the
    charge state is not trusted, or when the fit has the vendor charge: the
    extracted values are those of the fit and the [defaulted] and [orphan]
    flags keep their earlier values; the call answers
    [(extracted_mz, True)], unless the fit has the charge 0 and the vendor
    charge is known, where reading [extracted_mz] raises
    [ZeroDivisionError]. *)
Theorem accepted_fit_is_extracted (self : t) (trust_charge_state : bool)
    (precursor_scan : option Scan.t) (scan : Scan.t)
    (charge_range : option (Z * Z)) (kwargs : Kwargs)
    (ref_peak : FittedPeak.t) (peak_set : list FittedPeak.t)
    (fit : DeconvolutedPeak.t) (general : list DeconvolutedPeak.t)
    (others : list (option DeconvolutedPeak.t)) :
  resolve_precursor_scan self precursor_scan = Ok (Some scan) ->
  has_peak (picked scan) (mz self) reference_tolerance = Some ref_peak ->
  Scan.peak_set (picked scan) = Some peak_set ->
  deconvolute_peaks (between peak_set (mz self - 3) (mz self + 6)) [ref_peak]
    (effective_charge_range (picked scan) charge_range) kwargs
  = (general, Some fit :: others) ->
  charge self = ChargeNotProvided
  \/ trust_charge_state = false
  \/ charge self = ChargeInt (DeconvolutedPeak.charge fit) ->
  exists self',
    self' = extract self fit None
    /\ extracted_peak self' = Some fit
    /\ extracted_neutral_mass self' = DeconvolutedPeak.neutral_mass fit
    /\ extracted_charge self' = ChargeInt (DeconvolutedPeak.charge fit)
    /\ extracted_intensity self' = DeconvolutedPeak.intensity fit
    /\ defaulted self' = defaulted self
    /\ orphan self' = orphan self
    /\ (DeconvolutedPeak.charge fit <> 0%Z
        \/ charge self = ChargeNotProvided ->
        exists updated_mz,
          find_monoisotopic_peak self trust_charge_state precursor_scan
            charge_range kwargs
          = Ok (self', ReturnPair updated_mz true)
          /\ extracted_mz self' = Ok updated_mz)
    /\ (DeconvolutedPeak.charge fit = 0%Z ->
        charge self <> ChargeNotProvided ->
        find_monoisotopic_peak self trust_charge_state precursor_scan
          charge_range kwargs
        = Raise ZeroDivisionError).
Proof.
  intros Hres Href Hps Hdec Hcase. exists (extract self fit None).
  do 7 (split; [reflexivity|]).
  assert (Hcall :
    find_monoisotopic_peak self trust_charge_state precursor_scan
      charge_range kwargs
    = bind (extracted_mz (extract self fit None))
        (fun m => Ok (extract self fit None, ReturnPair m true))).
  { unfold PrecursorInformation.find_monoisotopic_peak.
    rewrite Hres. cbn [bind]. rewrite Href, Hps. cbn [bind]. rewrite Hdec.
    cbn [bind index lookup list_lookup].
    destruct Hcase as [Hc | [Ht | Hc]].
    - rewrite Hc. reflexivity.
    - rewrite Ht.
      destruct (charge_eqb (charge self) ChargeNotProvided); reflexivity.
    - assert (E : charge_eqb (charge self)
                    (ChargeInt (DeconvolutedPeak.charge fit)) = true)
        by (apply charge_eqb_eq; exact Hc).
      rewrite E, andb_false_r.
      destruct (charge_eqb (charge self) ChargeNotProvided); reflexivity. }
  rewrite Hcall. split.
  - intros Hok.
    assert (Hmz : exists m, extracted_mz (extract self fit None) = Ok m).
    { destruct (Z.eq_dec (DeconvolutedPeak.charge fit) 0%Z) as [Hz|Hnz].
      - destruct Hok as [Hnz|Hc]; [contradiction|].
        rewrite (extracted_mz_extracted_zero _ _ _ Hz), Hc. eauto.
      - rewrite (extracted_mz_extracted _ _ _ Hnz). eauto. }
    destruct Hmz as [m Hmz]. exists m. rewrite Hmz. split; reflexivity.
  - intros Hz Hknown.
    rewrite (extracted_mz_extracted_zero _ _ _ Hz).
    destruct (charge self); [contradiction | reflexivity].
Qed.

(** X9: whatever the collaborators answer, a call that returns changes
    none of the vendor values, ids, source, nearest peak, annotations or
    co-isolation entries, and never clears [defaulted] or [orphan]; the bare
    [False] leaves the whole record as it was, a pair with [False] leaves
    the record defaulted, and a pair with [True] leaves it holding a fitted
    peak whose mass, charge and intensity are the extracted values; the
    m/z of the pair is what [extracted_mz] reads of the updated record. *)
Theorem resolution_frame (self self' : t) (trust_charge_state : bool)
    (precursor_scan : option Scan.t) (charge_range : option (Z * Z))
    (kwargs : Kwargs) (out : outcome) :
  find_monoisotopic_peak self trust_charge_state precursor_scan
    charge_range kwargs = Ok (self', out) ->
  (mz self' = mz self /\ intensity self' = intensity self
   /\ charge self' = charge self
   /\ precursor_scan_id self' = precursor_scan_id self
   /\ product_scan_id self' = product_scan_id self
   /\ source self' = source self /\ peak self' = peak self
   /\ annotations self' = annotations self
   /\ coisolation self' = coisolation self)
  /\ (defaulted self = true -> defaulted self' = true)
  /\ (orphan self = true -> orphan self' = true)
  /\ match out with
     | ReturnFalse => self' = self
     | ReturnPair updated_mz false =>
         extracted_mz self' = Ok updated_mz /\ defaulted self' = true
         /\ extracted_peak self' = extracted_peak self
     | ReturnPair updated_mz true =>
         extracted_mz self' = Ok updated_mz
         /\ exists fit,
              extracted_peak self' = Some fit
              /\ extracted_neutral_mass self' = DeconvolutedPeak.neutral_mass fit
              /\ extracted_charge self' = ChargeInt (DeconvolutedPeak.charge fit)
              /\ extracted_intensity self' = DeconvolutedPeak.intensity fit
     end.
Proof.
  assert (Hdef : forall o m,
    extracted_mz (default self o) = Ok m ->
    let d := default self o in
    (mz d = mz self /\ intensity d = intensity self /\ charge d = charge self
     /\ precursor_scan_id d = precursor_scan_id self
     /\ product_scan_id d = product_scan_id self
     /\ source d = source self /\ peak d = peak self
     /\ annotations d = annotations self /\ coisolation d = coisolation self)
    /\ (defaulted self = true -> defaulted d = true)
    /\ (orphan self = true -> orphan d = true)
    /\ extracted_mz d = Ok m /\ defaulted d = true
    /\ extracted_peak d = extracted_peak self).
  { intros o m Hm d. subst d.
    split; [|split; [|split; [|split; [exact Hm|]]]];
      unfold PrecursorInformation.default;
      destruct (charge self), o; simpl; repeat split; auto. }
  assert (Hext : forall fit m,
    extracted_mz (extract self fit None) = Ok m ->
    let e := extract self fit None in
    (mz e = mz self /\ intensity e = intensity self /\ charge e = charge self
     /\ precursor_scan_id e = precursor_scan_id self
     /\ product_scan_id e = product_scan_id self
     /\ source e = source self /\ peak e = peak self
     /\ annotations e = annotations self /\ coisolation e = coisolation self)
    /\ (defaulted self = true -> defaulted e = true)
    /\ (orphan self = true -> orphan e = true)
    /\ extracted_mz e = Ok m
    /\ exists fit',
         extracted_peak e = Some fit'
         /\ extracted_neutral_mass e = DeconvolutedPeak.neutral_mass fit'
         /\ extracted_charge e = ChargeInt (DeconvolutedPeak.charge fit')
         /\ extracted_intensity e = DeconvolutedPeak.intensity fit').
  { intros fit m Hm e. subst e.
    split; [|split; [|split; [|split; [exact Hm|]]]]; simpl;
      repeat split; auto.
    exists fit. repeat split. }
  unfold PrecursorInformation.find_monoisotopic_peak.
  destruct (resolve_precursor_scan self precursor_scan) as [[scan|]|e];
    cbn [bind]; try discriminate.
  - destruct (has_peak _ _ _) as [ref|].
    + destruct (Scan.peak_set (picked scan)) as [ps|]; cbn [bind];
        [|discriminate].
      destruct (deconvolute_peaks _ _ _ _) as [g [|[fit|] o]];
        cbn [bind index lookup list_lookup]; try discriminate.
      * destruct (charge_eqb (charge self) ChargeNotProvided);
          [|destruct (trust_charge_state && _)].
        -- destruct (extracted_mz (extract self fit None)) as [m|] eqn:Em;
             cbn [bind]; [|discriminate].
           intros [= <- <-]. exact (Hext fit m Em).
        -- destruct (extracted_mz (default self false)) as [m|] eqn:Em;
             cbn [bind]; [|discriminate].
           intros [= <- <-]. exact (Hdef false m Em).
        -- destruct (extracted_mz (extract self fit None)) as [m|] eqn:Em;
             cbn [bind]; [|discriminate].
           intros [= <- <-]. exact (Hext fit m Em).
      * destruct (extracted_mz (default self true)) as [m|] eqn:Em;
          cbn [bind]; [|discriminate].
        intros [= <- <-]. exact (Hdef true m Em).
    + destruct (extracted_mz (default self true)) as [m|] eqn:Em;
        cbn [bind]; [|discriminate].
      intros [= <- <-]. exact (Hdef true m Em).
  - intros [= <- <-]. repeat split; auto.
Qed.

(** X10: [default] may be repeated: a second call changes nothing but
    the [orphan] flag, which stays raised once any call has raised it. *)
Theorem default_repeated (self : t) (first second : bool) :
  default (default self first) second = default self (first || second)
  /\ default (default self first) first = default self first.
Proof.
  unfold PrecursorInformation.default, neutral_mass.
  destruct (charge self), first, second; simpl; split; reflexivity.
Qed.
End ResolutionOutcomes.

(** ** Copies, binding and equality of precursor records *)

Section PrecursorCopies.
Import PrecursorInformation PrecursorInformationMethods.
Variable neutral_mass_of : Q -> Z -> Q.
Variable mass_charge_ratio : Q -> Z -> Q.

Local Abbreviation eq_to := (__eq__ mass_charge_ratio).

Lemma copy_same (a : t) : copy a = a.
Proof. destruct a. reflexivity. Qed.

Lemma extracted_mz_returns (a : t) :
  extracted_charge a <> ChargeInt 0 \/ charge a = ChargeNotProvided ->
  exists m, extracted_mz mass_charge_ratio a = Ok m.
Proof.
  intros H. unfold extracted_mz, call_mass_charge_ratio.
  destruct (extracted_charge a) as [|z]; [simpl; eauto|].
  destruct (Z.eqb_spec z 0) as [->|Hz]; simpl.
  - destruct H as [H|H]; [contradiction|]. rewrite H. simpl. eauto.
  - eauto.
Qed.

Lemma extracted_mz_raises (a : t) :
  extracted_charge a = ChargeInt 0 -> charge a <> ChargeNotProvided ->
  extracted_mz mass_charge_ratio a = Raise ZeroDivisionError.
Proof.
  intros He Hc. unfold extracted_mz, call_mass_charge_ratio. rewrite He.
  destruct (charge a); [contradiction | reflexivity].
Qed.

Lemma eq_refl_link (a : t) :
  ~ has_fit a \/ extracted_charge a <> ChargeInt 0
  \/ charge a = ChargeNotProvided ->
  eq_to a (Some a) = Ok true.
Proof.
  intros H. unfold __eq__.
  rewrite !bool_decide_eq_true_2 by reflexivity. cbn [negb].
  assert (E : forall c, charge_eqb c c = true)
    by (intros c; apply charge_eqb_eq; reflexivity).
  destruct (negb (Qeqb (extracted_neutral_mass a) 0)) eqn:Hfit.
  - destruct H as [H|H]; [apply no_fit_test in H; congruence|].
    destruct (extracted_mz_returns a H) as [m Hm].
    rewrite Hm. cbn [bind]. rewrite isclose_refl, E. reflexivity.
  - cbn [bind]. rewrite isclose_refl, E. reflexivity.
Qed.

Lemma eq_raises_link (a : t) :
  has_fit a -> extracted_charge a = ChargeInt 0 ->
  charge a <> ChargeNotProvided ->
  eq_to a (Some a) = Raise ZeroDivisionError.
Proof.
  intros Hfit He Hc. unfold __eq__.
  rewrite !bool_decide_eq_true_2 by reflexivity. cbn [negb].
  apply fit_test in Hfit. rewrite Hfit.
  rewrite (extracted_mz_raises a He Hc). reflexivity.
Qed.

(** X11: a record without a fit, or whose extracted charge is not 0, or
    whose vendor charge is unknown, is equal to itself, to its copy and to
    its clone; for a record with a fit, the extracted charge 0 and a known
    vendor charge the comparison with itself raises [ZeroDivisionError],
    on reading [extracted_mz]; a copy keeps the source, and no record is
    equal to [None]. *)
Theorem link_eq_reflexive (a : t) :
  (~ has_fit a \/ extracted_charge a <> ChargeInt 0
   \/ charge a = ChargeNotProvided ->
   eq_to a (Some a) = Ok true
   /\ eq_to a (Some (copy a)) = Ok true
   /\ eq_to (clone a) (Some a) = Ok true
   /\ __ne__ mass_charge_ratio a (Some a) = Ok false)
  /\ (has_fit a -> extracted_charge a = ChargeInt 0 ->
      charge a <> ChargeNotProvided ->
      eq_to a (Some a) = Raise ZeroDivisionError
      /\ __ne__ mass_charge_ratio a (Some a) = Raise ZeroDivisionError)
  /\ copy a = a
  /\ source (copy a) = source a
  /\ eq_to a None = Ok false.
Proof.
  unfold clone, __ne__. rewrite copy_same. split; [|split].
  - intros H. rewrite (eq_refl_link a H). repeat split.
  - intros Hfit He Hc. rewrite (eq_raises_link a Hfit He Hc). split; reflexivity.
  - repeat split.
Qed.

(** X12: pickling drops the source and nothing else: binding the record
    that was read back to the source of the original gives the original
    again, and reading back twice gives what reading back once gives. *)
Theorem rebind_after_pickle (p : t) (src : ScanSource) :
  source p = Some src ->
  exists p',
    loads (dumps p) = Ok p'
    /\ source p' = None
    /\ bind_source p' src = p
    /\ loads (dumps p') = Ok p'.
Proof.
  intros Hsrc. exists (unbind p). split; [reflexivity|].
  split; [reflexivity|]. split; [|reflexivity].
  destruct p. simpl in *. subst. reflexivity.
Qed.

(** X13: when the two mass conversions are inverse to each other for the
    charge at hand, defaulting a record that has a known, non-zero charge
    and no fit keeps it equal to what it was, in both directions of the
    comparison. *)
Theorem defaulted_equals_undefaulted (a : t) (c : Z) (as_orphan : bool) :
  (forall m, mass_charge_ratio (neutral_mass_of m c) c == m) ->
  charge a = ChargeInt c -> c <> 0%Z ->
  extracted_neutral_mass a == 0 ->
  eq_to (default neutral_mass_of a as_orphan) (Some a) = Ok true
  /\ eq_to a (Some (default neutral_mass_of a as_orphan)) = Ok true.
Proof.
  intros Hinv Hc Hnz Hno.
  assert (Hfit : Qeqb (extracted_neutral_mass a) 0 = true)
    by (apply Qeqb_eq; exact Hno).
  assert (Hz : Z.eqb c 0 = false) by (apply Z.eqb_neq; exact Hnz).
  unfold __eq__, PrecursorInformation.default, neutral_mass, extracted_mz,
    call_mass_charge_ratio.
  rewrite Hc. simpl.
  rewrite !bool_decide_eq_true_2 by reflexivity. simpl.
  rewrite ?Hfit, ?Hc, ?Hz. simpl.
  destruct (Qeqb (neutral_mass_of (mz a) c) 0); simpl;
    rewrite ?isclose_refl, ?Z.eqb_refl; simpl;
    rewrite ?(isclose_eq _ _ (Hinv (mz a))),
            ?(isclose_eq _ _ (Qeq_sym _ _ (Hinv (mz a))));
    simpl; rewrite ?Z.eqb_refl; split; reflexivity.
Qed.
End PrecursorCopies.

(** ** The charge range in negative mode *)

(** X14: the charge range handed to the deconvolution is the given one,
    or (1, 8) when none is given; it is multiplied by the polarity exactly
    when the polarity is negative and the larger of its two charges is
    positive, so that in negative mode a range of positive charges becomes
    a range of negative charges and a range without a positive charge is
    left as it is. *)
Theorem charge_range_sign (scan : Scan.t) (a b : Z) :
  ((0 <= Scan.polarity scan)%Z ->
   PrecursorInformation.effective_charge_range scan (Some (a, b)) = (a, b)
   /\ PrecursorInformation.effective_charge_range scan None = (1, 8)%Z)
  /\ ((Scan.polarity scan < 0)%Z -> (a <= 0)%Z -> (b <= 0)%Z ->
      PrecursorInformation.effective_charge_range scan (Some (a, b)) = (a, b))
  /\ ((Scan.polarity scan < 0)%Z -> (0 < a)%Z -> (0 < b)%Z ->
      let r := PrecursorInformation.effective_charge_range scan (Some (a, b)) in
      (fst r < 0)%Z /\ (snd r < 0)%Z
      /\ r = ((a * Scan.polarity scan)%Z, (b * Scan.polarity scan)%Z))
  /\ (Scan.polarity scan = (-1)%Z ->
      PrecursorInformation.effective_charge_range scan None = ((-1)%Z, (-8)%Z)).
Proof.
  unfold PrecursorInformation.effective_charge_range. simpl.
  split; [|split; [|split]].
  - intros Hp. destruct (Z.ltb_spec (Scan.polarity scan) 0); [lia|].
    split; reflexivity.
  - intros Hp Ha Hb. destruct (Z.ltb_spec 0 (Z.max a b)); [lia|].
    rewrite andb_false_r. reflexivity.
  - intros Hp Ha Hb.
    destruct (Z.ltb_spec (Scan.polarity scan) 0); [|lia].
    destruct (Z.ltb_spec 0 (Z.max a b)); [|lia]. simpl.
    split; [nia|]. split; [nia | reflexivity].
  - intros Hp. rewrite Hp. reflexivity.
Qed.

(** ** Correcting the vendor m/z *)

Lemma most_intense_spec (rest : list FittedPeak.t) :
  forall best,
    In (PrecursorInformationMethods.most_intense best rest) (best :: rest)
    /\ forall p, In p (best :: rest) ->
         FittedPeak.intensity p
         <= FittedPeak.intensity
              (PrecursorInformationMethods.most_intense best rest).
Proof.
  induction rest as [|x rest IH]; intros best; simpl.
  - split; [left; reflexivity|]. intros p [<-|[]]. apply Qle_refl.
  - destruct (Qltb (FittedPeak.intensity best) (FittedPeak.intensity x)) eqn:E.
    + apply Qltb_lt in E. destruct (IH x) as [Hin Hmax]. split.
      * destruct Hin as [<-|Hin]; auto.
      * intros p [<-|[<-|Hp]].
        -- apply Qle_trans with (FittedPeak.intensity x); [lra|].
           apply Hmax. left. reflexivity.
        -- apply Hmax. left. reflexivity.
        -- apply Hmax. right. exact Hp.
    + apply Qltb_ge in E. destruct (IH best) as [Hin Hmax]. split.
      * destruct Hin as [<-|Hin]; auto.
      * intros p [<-|[<-|Hp]].
        -- apply Hmax. left. reflexivity.
        -- apply Qle_trans with (FittedPeak.intensity best); [exact E|].
           apply Hmax. left. reflexivity.
        -- apply Hmax. right. exact Hp.
Qed.

Section CorrectMz.
Import PrecursorInformation PrecursorInformationMethods.
Variable Window : Type.
Variable pick_peaks : Scan.t -> Scan.t.
Variable has_peak : list FittedPeak.t -> Q -> Q -> option FittedPeak.t.
Variable between : list FittedPeak.t -> Q -> Q -> list FittedPeak.t.
Variable isolation_window : Scan.t -> option Window.
Variable is_empty : Window -> bool.
Variable spans : Window -> Q -> bool.
Variable lower_bound : Window -> Q.
Variable upper_bound : Window -> Q.

Local Abbreviation correct_mz :=
  (correct_mz Window pick_peaks has_peak between isolation_window
     is_empty spans lower_bound upper_bound).
Local Abbreviation enforce_window :=
  (enforce_window Window between isolation_window
     is_empty spans lower_bound upper_bound).

Lemma set_mz_same (self : t) : set_mz self (mz self) = self.
Proof. destruct self. reflexivity. Qed.

Lemma set_mz_twice (self : t) (x y : Q) :
  set_mz (set_mz self x) y = set_mz self y.
Proof. reflexivity. Qed.

Lemma enforce_window_frame (self self' : t) (peaks : list FittedPeak.t) :
  enforce_window self peaks = Ok self' -> self' = set_mz self (mz self').
Proof.
  unfold PrecursorInformationMethods.enforce_window.
  destruct (product self) as [product_scan|e]; simpl; [|discriminate].
  destruct (match product_scan with
            | Some scan => isolation_window scan
            | None => None
            end) as [w|];
    [|intros [= <-]; symmetry; apply set_mz_same].
  destruct (is_empty w); simpl;
    [intros [= <-]; symmetry; apply set_mz_same|].
  destruct (spans w (mz self)); simpl;
    [intros [= <-]; symmetry; apply set_mz_same|].
  destruct (between _ _ _);
    intros [= <-]; [symmetry; apply set_mz_same | reflexivity].
Qed.

(** X15: [correct_mz] returns the record as it is when the link names no
    precursor scan (bound or not) or when the lookup answers [None], and a
    call that returns has changed no attribute other than [mz]. *)
Theorem correct_mz_frame (self : t) (error_tolerance : Q)
    (enforce_isolation_window : bool) :
  (precursor_scan_id self = None ->
   correct_mz self error_tolerance enforce_isolation_window = Ok self)
  /\ (precursor self = Ok None ->
      correct_mz self error_tolerance enforce_isolation_window = Ok self)
  /\ (forall self',
        correct_mz self error_tolerance enforce_isolation_window = Ok self' ->
        self' = set_mz self (mz self')).
Proof.
  unfold PrecursorInformationMethods.correct_mz.
  split; [intros ->; reflexivity|]. split.
  - intros H. destruct (precursor_scan_id self); [|reflexivity].
    rewrite H. reflexivity.
  - intros self'.
    destruct (precursor_scan_id self);
      [|intros [= <-]; symmetry; apply set_mz_same].
    destruct (precursor self) as [[scan|]|e]; simpl;
      [|intros [= <-]; symmetry; apply set_mz_same|discriminate].
    destruct (Scan.peak_set _) as [ps|]; simpl; [|discriminate].
    destruct (has_peak ps (mz self) error_tolerance) as [p|].
    + destruct (enforce_isolation_window && _).
      * intros H. apply enforce_window_frame in H. rewrite H. reflexivity.
      * intros [= <-]. reflexivity.
    + destruct (enforce_isolation_window && _).
      * apply enforce_window_frame.
      * intros [= <-]. symmetry. apply set_mz_same.
Qed.

(** X16: with the isolation window enforced, a non-empty window on the
    product scan and a [between] that answers only peaks the window spans,
    [correct_mz] returns with an m/z inside the window, unless no picked
    peak lies between the bounds of the window; the m/z is then that of a
    most intense peak between the bounds whenever the corrected m/z fell
    outside. *)
Theorem correct_mz_enforces_window (self : t) (error_tolerance : Q)
    (scan product_scan : Scan.t) (peaks : list FittedPeak.t) (w : Window) :
  (forall p, In p (between peaks (lower_bound w) (upper_bound w)) ->
             spans w (FittedPeak.mz p) = true) ->
  precursor self = Ok (Some scan) ->
  Scan.peak_set (picked pick_peaks scan) = Some peaks ->
  product self = Ok (Some product_scan) ->
  isolation_window product_scan = Some w ->
  is_empty w = false ->
  exists self',
    correct_mz self error_tolerance true = Ok self'
    /\ (spans w (mz self') = true
        \/ between peaks (lower_bound w) (upper_bound w) = [])
    /\ (spans w (mz self') = true ->
        mz self' = mz self
        \/ (exists p, has_peak peaks (mz self) error_tolerance = Some p
                      /\ mz self' = FittedPeak.mz p)
        \/ (exists p, In p (between peaks (lower_bound w) (upper_bound w))
                      /\ mz self' = FittedPeak.mz p
                      /\ forall p', In p' (between peaks (lower_bound w)
                                             (upper_bound w)) ->
                                    FittedPeak.intensity p'
                                    <= FittedPeak.intensity p)).
Proof.
  intros Hcontract Hprec Hps Hprod Hwin Hne.
  assert (Hid : exists i, precursor_scan_id self = Some i).
  { unfold precursor in Hprec. destruct (precursor_scan_id self); [eauto|].
    discriminate. }
  assert (Hpid : product_scan_id self <> None).
  { unfold product in Hprod. destruct (product_scan_id self); [discriminate|].
    discriminate. }
  destruct Hid as [i Hid].
  unfold PrecursorInformationMethods.correct_mz.
  rewrite Hid, Hprec. simpl. rewrite Hps. simpl.
  set (corrected := match has_peak peaks (mz self) error_tolerance with
                    | Some p => set_mz self (FittedPeak.mz p)
                    | None => self
                    end).
  assert (Hsame : product_scan_id corrected = product_scan_id self
                  /\ product corrected = product self).
  { subst corrected. destruct (has_peak _ _ _); split; reflexivity. }
  destruct Hsame as [Hsame1 Hsame2].
  rewrite Hsame1, bool_decide_eq_true_2 by exact Hpid.
  unfold PrecursorInformationMethods.enforce_window.
  rewrite Hsame2, Hprod. simpl. rewrite Hwin, Hne. simpl.
  assert (Hcorr : mz corrected = mz self
                  \/ exists p, has_peak peaks (mz self) error_tolerance = Some p
                               /\ mz corrected = FittedPeak.mz p).
  { subst corrected. destruct (has_peak _ _ _) as [p|]; [right; eauto | left; reflexivity]. }
  destruct (spans w (mz corrected)) eqn:Hspan; simpl.
  - exists corrected. split; [reflexivity|]. split; [left; exact Hspan|].
    intros _. destruct Hcorr as [H|H]; auto.
  - destruct (between peaks (lower_bound w) (upper_bound w))
      as [|p rest] eqn:Hreg.
    + exists corrected. split; [reflexivity|]. split; [right; reflexivity|].
      intros H. congruence.
    + destruct (most_intense_spec rest p) as [Hin Hmax].
      eexists. split; [reflexivity|]. simpl.
      split; [left; apply Hcontract; exact Hin|].
      intros _. right. right. exists (most_intense p rest). auto.
Qed.
End CorrectMz.

(** ** Scan bunches *)

Section Bunches.
Import ScanBunch.
Variable S : Type.
Variable scan_id : S -> string.
Variable precursor_information : S -> option PrecursorInformation.t.
Variable pack_scan : S -> S.

Local Abbreviation index_products := (index_products S scan_id).
Local Abbreviation new := (__new__ S scan_id).
Local Abbreviation get_scan_by_id := (get_scan_by_id S).
Local Abbreviation precursor_for := (precursor_for S precursor_information).
Local Abbreviation pack := (pack S scan_id pack_scan).

Lemma index_products_other (products : list S) :
  forall (m : gmap string S) (k : string),
    (forall s, In s products -> scan_id s <> k) ->
    index_products products m !! k = m !! k.
Proof.
  induction products as [|x ps IH]; intros m k Hk; simpl; [reflexivity|].
  rewrite IH by (intros s Hs; apply Hk; right; exact Hs).
  apply lookup_insert_ne. apply Hk. left. reflexivity.
Qed.

Lemma index_products_sound (products : list S) :
  forall (m : gmap string S) (k : string) (s : S),
    index_products products m !! k = Some s ->
    (In s products /\ scan_id s = k) \/ m !! k = Some s.
Proof.
  induction products as [|x ps IH]; intros m k s H; simpl in H; [right; exact H|].
  apply IH in H as [[Hin Hid] | H]; [left; split; [right|]; assumption|].
  destruct (decide (scan_id x = k)) as [E|E].
  - subst k. rewrite lookup_insert_eq in H. injection H as <-.
    left. split; [left|]; reflexivity.
  - rewrite lookup_insert_ne in H by exact E. right. exact H.
Qed.

Lemma index_products_none (products : list S) :
  forall (m : gmap string S) (k : string),
    index_products products m !! k = None ->
    m !! k = None /\ forall s, In s products -> scan_id s <> k.
Proof.
  induction products as [|x ps IH]; intros m k H; simpl in H.
  - split; [exact H | intros s []].
  - apply IH in H as [H Hps].
    destruct (decide (scan_id x = k)) as [E|E].
    + subst k. rewrite lookup_insert_eq in H. discriminate.
    + rewrite lookup_insert_ne in H by exact E.
      split; [exact H|]. intros s [<-|Hs]; [exact E | apply Hps, Hs].
Qed.

Lemma index_products_unique (products : list S) :
  forall (m : gmap string S) (s : S),
    List.NoDup (map scan_id products) -> In s products ->
    index_products products m !! scan_id s = Some s.
Proof.
  induction products as [|x ps IH]; intros m s Hnd Hs; [destruct Hs|].
  simpl in Hnd. apply List.NoDup_cons_iff in Hnd as [Hx Hnd].
  destruct Hs as [<-|Hs]; simpl.
  - rewrite index_products_other; [apply lookup_insert_eq|].
    intros s Hs E. apply Hx. rewrite <- E. apply in_map. exact Hs.
  - apply IH; assumption.
Qed.

Lemma new_id_map (precursor : option S) (products : list S) :
  _id_map S (new precursor products)
  = index_products (members S precursor products) ∅.
Proof. destruct precursor; reflexivity. Qed.

(** X17: in a freshly built bunch, a lookup that answers gives a scan of
    the group that carries the id asked for, and the lookup fails, with
    [KeyError], exactly for the ids that no scan of the group carries. *)
Theorem bunch_lookup (precursor : option S) (products : list S) (k : string) :
  (forall s, get_scan_by_id (new precursor products) k = Ok s ->
             scan_id s = k /\ In s (members S precursor products))
  /\ (get_scan_by_id (new precursor products) k = Raise KeyError
      <-> forall s, In s (members S precursor products) -> scan_id s <> k)
  /\ ((exists s, In s (members S precursor products) /\ scan_id s = k) ->
      exists s, get_scan_by_id (new precursor products) k = Ok s).
Proof.
  unfold ScanBunch.get_scan_by_id. rewrite new_id_map.
  destruct (index_products _ ∅ !! k) as [s|] eqn:E.
  - apply index_products_sound in E as [[Hin Hid] | E];
      [|rewrite lookup_empty in E; discriminate].
    split; [intros s' [= <-]; split; assumption|].
    split; [|eauto].
    split; [discriminate|]. intros H. destruct (H s Hin Hid).
  - apply index_products_none in E as [_ E].
    split; [discriminate|]. split; [split; [intros _; exact E | reflexivity]|].
    intros (s & Hin & Hid). destruct (E s Hin Hid).
Qed.

(** X18: when the ids of the group are pairwise different, looking up
    the id of any scan of the group gives that scan back. *)
Theorem bunch_lookup_member (precursor : option S) (products : list S) (s : S) :
  List.NoDup (map scan_id (members S precursor products)) ->
  In s (members S precursor products) ->
  get_scan_by_id (new precursor products) (scan_id s) = Ok s.
Proof.
  intros Hnd Hs. unfold ScanBunch.get_scan_by_id. rewrite new_id_map.
  rewrite index_products_unique by assumption. reflexivity.
Qed.

(** X19: [precursor_for] answers [None] for a scan without precursor
    information; for a scan whose link names the precursor of the bunch it
    answers that precursor, when ids are pairwise different; and it fails
    with [KeyError] when the link names an id that no scan of the group
    carries, as in a bunch of products without precursor. *)
Theorem bunch_precursor_for (precursor : option S) (products : list S) (s : S) :
  (precursor_information s = None ->
   precursor_for (new precursor products) s = Ok None)
  /\ (forall link p,
        List.NoDup (map scan_id (members S precursor products)) ->
        precursor = Some p ->
        precursor_information s = Some link ->
        PrecursorInformation.precursor_scan_id link = Some (scan_id p) ->
        precursor_for (new precursor products) s = Ok (Some p))
  /\ (forall link k,
        precursor_information s = Some link ->
        PrecursorInformation.precursor_scan_id link = Some k ->
        (forall m, In m (members S precursor products) -> scan_id m <> k) ->
        precursor_for (new precursor products) s = Raise KeyError).
Proof.
  unfold ScanBunch.precursor_for. split; [intros ->; reflexivity|]. split.
  - intros link p Hnd Hp Hlink Hid. rewrite Hlink, Hid.
    unfold ScanBunch.get_scan_by_id. rewrite new_id_map.
    rewrite index_products_unique; [reflexivity | exact Hnd|].
    rewrite Hp. left. reflexivity.
  - intros link k Hlink Hid Hnone. rewrite Hlink, Hid.
    unfold ScanBunch.get_scan_by_id. rewrite new_id_map.
    rewrite index_products_other by exact Hnone.
    rewrite lookup_empty. reflexivity.
Qed.

Lemma index_products_pack (products : list S) :
  (forall s, scan_id (pack_scan s) = scan_id s) ->
  forall m : gmap string S,
    index_products (map pack_scan products) (pack_scan <$> m)
    = pack_scan <$> index_products products m.
Proof.
  intros Hid. induction products as [|x ps IH]; intros m; simpl; [reflexivity|].
  rewrite <- IH, Hid, fmap_insert. reflexivity.
Qed.

(** X20: packing a bunch without precursor fails with [AttributeError];
    with a precursor, and a [pack] of scans that keeps their ids, it gives
    the bunch of the packed scans in the same order, in which every lookup
    answers the packed scan of what the lookup answered before. *)
Theorem bunch_pack (p : S) (products : list S) :
  (forall s, scan_id (pack_scan s) = scan_id s) ->
  pack (new None products) = Raise AttributeError
  /\ exists packed,
       pack (new (Some p) products) = Ok packed
       /\ ScanBunch.precursor S packed = Some (pack_scan p)
       /\ ScanBunch.products S packed = map pack_scan products
       /\ forall k,
            get_scan_by_id packed k
            = match get_scan_by_id (new (Some p) products) k with
              | Ok s => Ok (pack_scan s)
              | Raise e => Raise e
              end.
Proof.
  intros Hid. split; [reflexivity|].
  eexists. split; [reflexivity|]. split; [reflexivity|]. split; [reflexivity|].
  intros k. unfold ScanBunch.get_scan_by_id. simpl.
  assert (E : index_products (map pack_scan products)
                (<[scan_id (pack_scan p) := pack_scan p]> ∅)
              = pack_scan <$> index_products products (<[scan_id p := p]> ∅)).
  { rewrite <- index_products_pack by exact Hid.
    rewrite fmap_insert, fmap_empty, Hid. reflexivity. }
  rewrite E, lookup_fmap.
  destruct (index_products products _ !! k); reflexivity.
Qed.
End Bunches.

(** ** The facades: tiers, maxima and failures *)

Lemma argmax_from_spec (xs : list Q) :
  forall (pre : list Q) (best_i : nat) (best : Q),
    (best_i < length pre)%nat ->
    nth best_i (pre ++ xs) 0 = best ->
    (forall j, (j < length pre)%nat -> nth j (pre ++ xs) 0 <= best) ->
    (forall j, (j < best_i)%nat -> nth j (pre ++ xs) 0 < best) ->
    let r := BasePeakMethods.argmax_from best_i best (length pre) xs in
    (r < length (pre ++ xs))%nat
    /\ (forall j, (j < length (pre ++ xs))%nat ->
                  nth j (pre ++ xs) 0 <= nth r (pre ++ xs) 0)
    /\ (forall j, (j < r)%nat -> nth j (pre ++ xs) 0 < nth r (pre ++ xs) 0).
Proof.
  induction xs as [|x xs IH]; intros pre best_i best Hi Hbest Hmax Hfirst; simpl.
  - rewrite app_nil_r in *. subst best. repeat split; assumption.
  - assert (Hx : nth (length pre) (pre ++ x :: xs) 0 = x)
      by (rewrite app_nth2, Nat.sub_diag by lia; reflexivity).
    assert (Happ : pre ++ x :: xs = (pre ++ [x]) ++ xs)
      by (rewrite <- app_assoc; reflexivity).
    assert (Hlen : length (pre ++ [x]) = S (length pre))
      by (rewrite length_app; simpl; lia).
    rewrite Happ in *.
    destruct (Qltb best x) eqn:E.
    + apply Qltb_lt in E.
      specialize (IH (pre ++ [x]) (length pre) x). rewrite Hlen in IH.
      apply IH; [lia | exact Hx | |].
      * intros j Hj. destruct (Nat.eq_dec j (length pre)) as [->|Hne].
        -- rewrite Hx. apply Qle_refl.
        -- pose proof (Hmax j ltac:(lia)). lra.
      * intros j Hj. pose proof (Hmax j Hj). lra.
    + apply Qltb_ge in E.
      specialize (IH (pre ++ [x]) best_i best). rewrite Hlen in IH.
      apply IH; [lia | exact Hbest | | exact Hfirst].
      intros j Hj. destruct (Nat.eq_dec j (length pre)) as [->|Hne].
      * rewrite Hx. exact E.
      * apply Hmax. lia.
Qed.

Lemma argmax_spec (xs : list Q) :
  xs <> [] ->
  exists r,
    BasePeakMethods.argmax xs = Ok r /\ (r < length xs)%nat
    /\ (forall j, (j < length xs)%nat -> nth j xs 0 <= nth r xs 0)
    /\ (forall j, (j < r)%nat -> nth j xs 0 < nth r xs 0).
Proof.
  destruct xs as [|x xs]; [contradiction|]. intros _.
  eexists. split; [reflexivity|].
  apply (argmax_from_spec xs [x] 0%nat x); simpl; try lia; try reflexivity.
  - intros j Hj. replace j with 0%nat by lia. apply Qle_refl.
Qed.

Lemma peak_sequence_tic_peaks (ps : list FittedPeak.t) (acc : Q) :
  TICMethods._peak_sequence_tic acc (map EPeak ps)
  = Ok (fold_left Qplus (map FittedPeak.intensity ps) acc).
Proof.
  revert acc. induction ps as [|p ps IH]; intros acc; simpl; [reflexivity|].
  apply IH.
Qed.

Lemma peaks_of_elements_peaks (ps : list FittedPeak.t) :
  BasePeakMethods.peaks_of_elements (map EPeak ps) = Ok ps.
Proof.
  induction ps as [|p ps IH]; simpl; [reflexivity|]. rewrite IH. reflexivity.
Qed.

Section FacadeTiers.
Variable scan : scan_like.

(** X21: the base peak facade stops at the first tier whose attribute is
    there, even when it is [None] or an empty set, and answers [None]
    without looking at the tiers below; the total ion current facade skips
    a tier that is [None]. *)
Theorem base_peak_stops_at_none :
  (deconvoluted_peak_set scan = IsNone \/ deconvoluted_peak_set scan = Has [] ->
   BasePeakMethods._guess scan = Ok BasePeakMethods.NoPeak)
  /\ (deconvoluted_peak_set scan = Missing ->
      peak_set scan = IsNone \/ peak_set scan = Has [] ->
      BasePeakMethods._guess scan = Ok BasePeakMethods.NoPeak)
  /\ (forall ps,
        deconvoluted_peak_set scan = IsNone -> peak_set scan = Has ps ->
        TICMethods._guess scan = Ok (total (map FittedPeak.intensity ps)))
  /\ (deconvoluted_peak_set scan = Has [] -> TICMethods._guess scan = Ok 0).
Proof.
  unfold BasePeakMethods._guess, TICMethods._guess,
    BasePeakMethods.deconvoluted, BasePeakMethods.centroided,
    TICMethods.deconvoluted, TICMethods.centroided.
  split; [intros [-> | ->]; reflexivity|].
  split; [intros -> [-> | ->]; reflexivity|].
  split; [intros ps -> ->; reflexivity | intros ->; reflexivity].
Qed.

(** X22: the total ion current is taken from the deconvoluted peaks when
    there are any, else from the picked peaks, else from the raw
    intensities; a tier whose attribute is absent or [None] is passed
    over. *)
Theorem tic_tier_order :
  (forall peaks, deconvoluted_peak_set scan = Has peaks ->
     TICMethods._guess scan
     = Ok (total (map DeconvolutedPeak.intensity peaks)))
  /\ (forall ps,
        deconvoluted_peak_set scan = Missing
        \/ deconvoluted_peak_set scan = IsNone ->
        peak_set scan = Has ps ->
        TICMethods._guess scan = Ok (total (map FittedPeak.intensity ps)))
  /\ (forall a,
        deconvoluted_peak_set scan = Missing
        \/ deconvoluted_peak_set scan = IsNone ->
        peak_set scan = Missing \/ peak_set scan = IsNone ->
        arrays scan = Has a ->
        TICMethods._guess scan = Ok (total (RawDataArrays.intensity a))).
Proof.
  unfold TICMethods._guess, TICMethods.deconvoluted, TICMethods.centroided,
    TICMethods.raw.
  split; [intros peaks ->; reflexivity|].
  split; [intros ps [-> | ->] ->; reflexivity|].
  intros a [-> | ->] [-> | ->] ->; reflexivity.
Qed.

(** X23: from a non-empty peak set the base peak facade answers a peak
    of the set that no peak of the set exceeds in intensity: a deconvoluted
    peak when there is a deconvoluted set, else a picked peak. *)
Theorem base_peak_is_most_intense :
  (forall peaks,
     deconvoluted_peak_set scan = Has peaks -> peaks <> [] ->
     exists p,
       BasePeakMethods._guess scan = Ok (BasePeakMethods.Fit p)
       /\ In p peaks
       /\ forall p', In p' peaks ->
            DeconvolutedPeak.intensity p' <= DeconvolutedPeak.intensity p)
  /\ (forall ps,
        deconvoluted_peak_set scan = Missing ->
        peak_set scan = Has ps -> ps <> [] ->
        exists p,
          BasePeakMethods._guess scan = Ok (BasePeakMethods.Picked p)
          /\ In p ps
          /\ forall p', In p' ps ->
               FittedPeak.intensity p' <= FittedPeak.intensity p).
Proof.
  unfold BasePeakMethods._guess, BasePeakMethods.deconvoluted,
    BasePeakMethods.centroided.
  split.
  - intros peaks -> Hne. destruct peaks as [|p rest]; [contradiction|]. simpl.
    destruct (max_by_spec DeconvolutedPeak.intensity rest p) as [Hin Hmax].
    eexists. split; [reflexivity|]. split; assumption.
  - intros ps -> -> Hne. destruct ps as [|p rest]; [contradiction|]. simpl.
    destruct (max_by_spec FittedPeak.intensity rest p) as [Hin Hmax].
    eexists. split; [reflexivity|]. split; assumption.
Qed.

(** X24: with neither peak set attribute and raw arrays of equal,
    non-zero length, the base peak facade answers the point at the first
    index of the largest intensity. *)
Theorem base_peak_of_raw_arrays (a : RawDataArrays.t) :
  deconvoluted_peak_set scan = Missing ->
  peak_set scan = Missing ->
  arrays scan = Has a ->
  RawDataArrays.intensity a <> [] ->
  length (RawDataArrays.mz a) = length (RawDataArrays.intensity a) ->
  exists i,
    (i < length (RawDataArrays.intensity a))%nat
    /\ BasePeakMethods._guess scan
       = Ok (BasePeakMethods.base_peak_t
               (nth i (RawDataArrays.mz a) 0)
               (nth i (RawDataArrays.intensity a) 0))
    /\ (forall j, (j < length (RawDataArrays.intensity a))%nat ->
          nth j (RawDataArrays.intensity a) 0
          <= nth i (RawDataArrays.intensity a) 0)
    /\ (forall j, (j < i)%nat ->
          nth j (RawDataArrays.intensity a) 0
          < nth i (RawDataArrays.intensity a) 0).
Proof.
  intros Hd Hp Ha Hne Hlen.
  destruct (argmax_spec _ Hne) as (i & Harg & Hi & Hmax & Hfirst).
  exists i. split; [exact Hi|]. split; [|split; assumption].
  unfold BasePeakMethods._guess, BasePeakMethods.deconvoluted,
    BasePeakMethods.centroided, BasePeakMethods.raw.
  rewrite Hd, Hp, Ha. simpl. rewrite Harg. simpl.
  rewrite !index_nth by lia. reflexivity.
Qed.

(** X25: with neither peak set attribute and raw arrays without points,
    the base peak facade fails with the [ValueError] of [argmax], which
    none of its handlers takes, while the total ion current is 0. *)
Theorem base_peak_of_empty_arrays (a : RawDataArrays.t) :
  deconvoluted_peak_set scan = Missing ->
  peak_set scan = Missing ->
  arrays scan = Has a ->
  RawDataArrays.intensity a = [] ->
  BasePeakMethods._guess scan = Raise ValueError
  /\ TICMethods._guess scan = Ok 0.
Proof.
  intros Hd Hp Ha He.
  unfold BasePeakMethods._guess, TICMethods._guess,
    BasePeakMethods.deconvoluted, BasePeakMethods.centroided,
    BasePeakMethods.raw, TICMethods.deconvoluted, TICMethods.centroided,
    TICMethods.raw.
  rewrite Hd, Hp, Ha. simpl. rewrite He. split; reflexivity.
Qed.

(** X26: an object without any tier attribute that iterates as a
    non-empty sequence of peaks is reduced like a peak set by both facades:
    to the sum of the intensities, and to a peak that none exceeds. *)
Theorem peak_sequence_fallback (ps : list FittedPeak.t) :
  deconvoluted_peak_set scan = Missing ->
  peak_set scan = Missing ->
  arrays scan = Missing ->
  ps <> [] ->
  points scan = Some (map EPeak ps) ->
  TICMethods._guess scan = Ok (total (map FittedPeak.intensity ps))
  /\ exists p,
       BasePeakMethods._guess scan = Ok (BasePeakMethods.Picked p)
       /\ In p ps
       /\ forall p', In p' ps ->
            FittedPeak.intensity p' <= FittedPeak.intensity p.
Proof.
  intros Hd Hp Ha Hne Hpts.
  unfold BasePeakMethods._guess, TICMethods._guess,
    BasePeakMethods.deconvoluted, BasePeakMethods.centroided,
    BasePeakMethods.raw, TICMethods.deconvoluted, TICMethods.centroided,
    TICMethods.raw, list_of_scan.
  rewrite Hd, Hp, Ha, Hpts. simpl.
  destruct ps as [|p rest]; [contradiction|].
  change (map EPeak (p :: rest)) with (EPeak p :: map EPeak rest).
  cbn [bind]. split.
  - change (EPeak p :: map EPeak rest) with (map EPeak (p :: rest)).
    apply peak_sequence_tic_peaks.
  - unfold BasePeakMethods._peak_sequence_bp.
    change (EPeak p :: map EPeak rest) with (map EPeak (p :: rest)).
    rewrite peaks_of_elements_peaks. simpl.
    destruct (max_by_spec FittedPeak.intensity rest p) as [Hin Hmax].
    eexists. split; [reflexivity|]. split; assumption.
Qed.

(** X27: an object without any tier attribute that is not iterable, is
    empty, or starts with an element that is neither a peak nor a number,
    makes both facades fail with [TypeError]. *)
Theorem unclassifiable_scan_raises :
  deconvoluted_peak_set scan = Missing ->
  peak_set scan = Missing ->
  arrays scan = Missing ->
  points scan = None \/ points scan = Some []
  \/ (exists rest, points scan = Some (EOther :: rest)) ->
  TICMethods._guess scan = Raise TypeError
  /\ BasePeakMethods._guess scan = Raise TypeError.
Proof.
  intros Hd Hp Ha Hpts.
  unfold BasePeakMethods._guess, TICMethods._guess,
    BasePeakMethods.deconvoluted, BasePeakMethods.centroided,
    BasePeakMethods.raw, TICMethods.deconvoluted, TICMethods.centroided,
    TICMethods.raw, list_of_scan.
  rewrite Hd, Hp, Ha. simpl.
  destruct Hpts as [-> | [-> | [rest ->]]]; split; reflexivity.
Qed.
End FacadeTiers.

(** ** Envelope statistics *)

Section Envelopes.
Import EnvelopeStatistics.

Lemma max_intensity_spec (rest : list peak) :
  forall best,
    In (max_intensity best rest) (best :: rest)
    /\ forall p, In p (best :: rest) ->
                 intensity p <= intensity (max_intensity best rest).
Proof.
  induction rest as [|x rest IH]; intros best; simpl.
  - split; [left; reflexivity|]. intros p [<-|[]]. apply Qle_refl.
  - destruct (Qltb (intensity best) (intensity x)) eqn:E.
    + apply Qltb_lt in E. destruct (IH x) as [Hin Hmax]. split.
      * destruct Hin as [<-|Hin]; auto.
      * intros p [<-|[<-|Hp]].
        -- apply Qle_trans with (intensity x); [lra|].
           apply Hmax. left. reflexivity.
        -- apply Hmax. left. reflexivity.
        -- apply Hmax. right. exact Hp.
    + apply Qltb_ge in E. destruct (IH best) as [Hin Hmax]. split.
      * destruct Hin as [<-|Hin]; auto.
      * intros p [<-|[<-|Hp]].
        -- apply Hmax. left. reflexivity.
        -- apply Qle_trans with (intensity best); [exact E|].
           apply Hmax. left. reflexivity.
        -- apply Hmax. right. exact Hp.
Qed.

Lemma real_peaks_in (envelope : list peak) (p : peak) :
  In p (real_peaks envelope) <-> In p envelope /\ 1 < mz p.
Proof.
  unfold real_peaks. rewrite filter_In, Qltb_lt. reflexivity.
Qed.

Lemma real_peaks_nil (envelope : list peak) :
  real_peaks envelope = [] <-> forall p, In p envelope -> ~ 1 < mz p.
Proof.
  split.
  - intros E p Hp Hlt.
    assert (H : In p (real_peaks envelope)) by (apply real_peaks_in; auto).
    rewrite E in H. destruct H.
  - intros H. destruct (real_peaks envelope) as [|p ps] eqn:E; [reflexivity|].
    assert (Hp : In p (real_peaks envelope)) by (rewrite E; left; reflexivity).
    apply real_peaks_in in Hp as [Hp Hlt]. destruct (H p Hp Hlt).
Qed.

(** X28: [most_abundant_mz] answers the m/z of a peak of the envelope
    above m/z 1 that no other such peak exceeds in intensity, and it fails,
    on [max] of an empty list, exactly when the envelope has no peak above
    m/z 1. *)
Theorem most_abundant_mz_spec (envelope : list peak) :
  (most_abundant_mz envelope = MaxOfEmpty
   <-> forall p, In p envelope -> ~ 1 < mz p)
  /\ ((exists p, In p envelope /\ 1 < mz p) ->
      exists p,
        most_abundant_mz envelope = Returns (mz p)
        /\ In p envelope /\ 1 < mz p
        /\ forall p', In p' envelope -> 1 < mz p' ->
                      intensity p' <= intensity p)
  /\ most_abundant_mz envelope <> ZeroDivisionError.
Proof.
  unfold most_abundant_mz. rewrite <- real_peaks_nil.
  destruct (real_peaks envelope) as [|p rest] eqn:E.
  - split; [split; reflexivity|]. split; [|discriminate].
    intros (p & Hp & Hlt).
    assert (H : In p (real_peaks envelope)) by (apply real_peaks_in; auto).
    rewrite E in H. destruct H.
  - split; [split; discriminate|]. split; [|discriminate]. intros _.
    destruct (max_intensity_spec rest p) as [Hin Hmax].
    rewrite <- E in Hin, Hmax.
    exists (max_intensity p rest). split; [reflexivity|].
    apply real_peaks_in in Hin as [Hin Hlt]. split; [exact Hin|].
    split; [exact Hlt|]. intros p' Hp' Hlt'. apply Hmax.
    apply real_peaks_in. auto.
Qed.

Lemma inject_S (k : nat) :
  inject_Z (Z.of_nat (S k)) == inject_Z (Z.of_nat k) + 1.
Proof. rewrite Nat2Z.inj_succ, <- Z.add_1_r, inject_Z_plus. reflexivity. Qed.

Lemma inject_nat_nonneg (k : nat) : 0 <= inject_Z (Z.of_nat k).
Proof. change 0 with (inject_Z 0). rewrite <- Zle_Qle. lia. Qed.

Lemma float_len_positive (ps : list peak) : ps <> [] -> 0 < float_len ps.
Proof.
  destruct ps as [|p ps]; [contradiction|]. intros _. unfold float_len.
  cbn [length]. rewrite inject_S. pose proof (inject_nat_nonneg (length ps)). lra.
Qed.

Lemma real_peaks_idempotent (envelope : list peak) :
  real_peaks (real_peaks envelope) = real_peaks envelope.
Proof.
  unfold real_peaks. induction envelope as [|p ps IH]; [reflexivity|].
  cbn [List.filter]. destruct (Qltb 1 (mz p)) eqn:E; [|exact IH].
  cbn [List.filter]. rewrite E, IH. reflexivity.
Qed.

Variable float_add : Q -> Q -> Q.
Variable float_div : Q -> Q -> Q.

Local Abbreviation divide := (divide float_div).
Local Abbreviation float_sum := (float_sum float_add).
Local Abbreviation average_mz := (average_mz float_add float_div).
Local Abbreviation average_signal_to_noise :=
  (average_signal_to_noise float_add float_div).

Lemma divide_by_positive (x y : Q) :
  0 < y -> divide x y = Returns (float_div x y).
Proof.
  intros H. unfold EnvelopeStatistics.divide.
  destruct (Qeqb y 0) eqn:E; [|reflexivity].
  apply Qeqb_eq in E. lra.
Qed.

(** The average of one key over the peaks above m/z 1. *)
Lemma average_over_real_peaks (key : peak -> Q) (envelope : list peak) :
  let average env :=
    divide (float_sum (map key (real_peaks env))) (float_len (real_peaks env)) in
  (average envelope = ZeroDivisionError
   <-> forall p, In p envelope -> ~ 1 < mz p)
  /\ ((exists p, In p envelope /\ 1 < mz p) ->
      average envelope
      = Returns (float_div (float_sum (map key (real_peaks envelope)))
                   (float_len (real_peaks envelope))))
  /\ average (real_peaks envelope) = average envelope
  /\ average envelope <> MaxOfEmpty
  /\ ((forall x, float_add 0 x == x) -> (forall x, float_div x 1 == x) ->
      forall p, real_peaks envelope = [p] ->
                exists v, average envelope = Returns v /\ v == key p).
Proof.
  intros average. unfold average. rewrite real_peaks_idempotent.
  rewrite <- real_peaks_nil.
  destruct (real_peaks envelope) as [|p rest] eqn:E.
  - split; [split; reflexivity|]. split.
    { intros (p & Hp & Hlt).
      assert (H : In p (real_peaks envelope)) by (apply real_peaks_in; auto).
      rewrite E in H. destruct H. }
    split; [reflexivity|]. split; [discriminate|]. discriminate.
  - assert (Hpos : 0 < float_len (p :: rest))
      by (apply float_len_positive; discriminate).
    rewrite (divide_by_positive _ _ Hpos).
    split; [split; discriminate|]. split; [reflexivity|].
    split; [reflexivity|]. split; [discriminate|].
    intros Hadd Hdiv q Hq. injection Hq as -> ->.
    eexists. split; [reflexivity|].
    unfold EnvelopeStatistics.float_sum, float_len. cbn [map fold_left length].
    change (inject_Z (Z.of_nat 1)) with 1. rewrite Hdiv. apply Hadd.
Qed.

(** X29: [average_mz] fails with [ZeroDivisionError] exactly when the
    envelope has no peak above m/z 1; otherwise it answers the float
    quotient of the float sum of the m/z of the peaks above m/z 1, taken in
    their order, by their number. The peaks that are not above m/z 1 do not
    count, the call never fails as [max] does, and, when adding to 0 and
    dividing by 1 are exact, an envelope with a single peak above m/z 1
    averages to the m/z of that peak. *)
Theorem average_mz_spec (envelope : list peak) :
  (average_mz envelope = ZeroDivisionError
   <-> forall p, In p envelope -> ~ 1 < mz p)
  /\ ((exists p, In p envelope /\ 1 < mz p) ->
      average_mz envelope
      = Returns (float_div (float_sum (map mz (real_peaks envelope)))
                   (float_len (real_peaks envelope))))
  /\ average_mz (real_peaks envelope) = average_mz envelope
  /\ average_mz envelope <> MaxOfEmpty
  /\ ((forall x, float_add 0 x == x) -> (forall x, float_div x 1 == x) ->
      forall p, real_peaks envelope = [p] ->
                exists v, average_mz envelope = Returns v /\ v == mz p).
Proof. exact (average_over_real_peaks mz envelope). Qed.

(** X30: [average_signal_to_noise] averages over the same peaks: it
    fails with [ZeroDivisionError] exactly when the envelope has no peak
    above m/z 1, and otherwise answers the float quotient of the float sum of
    the signal to noise ratios of the peaks above m/z 1, taken in their
    order, by their number. The peaks that are not above m/z 1 do not
    count, and, when adding to 0 and dividing by 1 are exact, an envelope
    with a single peak above m/z 1 averages to the ratio of that peak. *)
Theorem average_signal_to_noise_spec (envelope : list peak) :
  (average_signal_to_noise envelope = ZeroDivisionError
   <-> forall p, In p envelope -> ~ 1 < mz p)
  /\ ((exists p, In p envelope /\ 1 < mz p) ->
      average_signal_to_noise envelope
      = Returns (float_div
                   (float_sum (map signal_to_noise (real_peaks envelope)))
                   (float_len (real_peaks envelope))))
  /\ average_signal_to_noise (real_peaks envelope)
     = average_signal_to_noise envelope
  /\ average_signal_to_noise envelope <> MaxOfEmpty
  /\ ((forall x, float_add 0 x == x) -> (forall x, float_div x 1 == x) ->
      forall p, real_peaks envelope = [p] ->
                exists v, average_signal_to_noise envelope = Returns v
                          /\ v == signal_to_noise p).
Proof. exact (average_over_real_peaks signal_to_noise envelope). Qed.
End Envelopes.

(** ** Witnesses for the further properties *)

Lemma add_same_axis_commutes_witness :
  exists r1 r2,
    RawDataArrays.__add__ example_average_signal
      example_arrays example_arrays_with_channel = Ok r1
    /\ RawDataArrays.__add__ example_average_signal
         example_arrays_with_channel example_arrays = Ok r2
    /\ RawDataArrays.__eq__ r1 (RawDataArrays.PyArrays r2) = Ok true.
Proof.
  destruct (add_same_axis_commutes example_average_signal
              example_arrays example_arrays_with_channel
              eq_refl eq_refl eq_refl)
    as (r1 & r2 & H1 & H2 & _ & _ & _ & _ & Heq).
  exists r1, r2. repeat split; assumption.
Defined.

Lemma between_mz_of_empty_witness :
  RawDataArrays.between_mz example_empty_arrays 1 2 = Some (Raise IndexError).
Proof. apply between_mz_of_empty. reflexivity. Defined.

Lemma between_mz_bounds_witness :
  exists r,
    RawDataArrays.between_mz example_arrays 1 (203 # 100) = Some (Ok r)
    /\ length (RawDataArrays.mz r) = length (RawDataArrays.intensity r)
    /\ forall x, In x (RawDataArrays.mz r) ->
                 1 <= x /\ x < (203 # 100) + RawDataArrays.tolerance.
Proof.
  apply (between_mz_bounds example_arrays); [reflexivity | discriminate | reflexivity].
Defined.

Lemma no_peak_or_no_fit_orphans_witness :
  exists self' updated_mz,
    PrecursorInformation.find_monoisotopic_peak
      averagine_neutral_mass averagine_mass_charge_ratio unit
      example_pick_peaks example_has_no_peak example_between
      example_deconvolute_peaks example_link false None None tt
    = Ok (self', PrecursorInformation.ReturnPair updated_mz false)
    /\ PrecursorInformation.orphan self' = true.
Proof.
  destruct (no_peak_or_no_fit_orphans
              averagine_neutral_mass averagine_mass_charge_ratio unit
              example_pick_peaks example_has_no_peak example_between
              example_deconvolute_peaks
              example_link false None example_scan None tt eq_refl
              (or_introl eq_refl))
    as (Hknown & _).
  destruct Hknown as (self' & m & Hcall & _ & _ & Ho & _); [discriminate|].
  exists self', m. split; assumption.
Defined.

Lemma accepted_fit_is_extracted_witness :
  exists self' updated_mz,
    PrecursorInformation.find_monoisotopic_peak
      averagine_neutral_mass averagine_mass_charge_ratio unit
      example_pick_peaks example_has_peak example_between
      example_deconvolute_charge_2 example_link true None None tt
    = Ok (self', PrecursorInformation.ReturnPair updated_mz true)
    /\ PrecursorInformation.extracted_peak self' = Some example_fit_of_charge_2.
Proof.
  destruct (accepted_fit_is_extracted
              averagine_neutral_mass averagine_mass_charge_ratio unit
              example_pick_peaks example_has_peak example_between
              example_deconvolute_charge_2
              example_link true None example_scan None tt
              (FittedPeak.mk (5002505 # 10000) 1000)
              [FittedPeak.mk (5002505 # 10000) 1000]
              example_fit_of_charge_2 [example_fit_of_charge_2] []
              eq_refl eq_refl eq_refl eq_refl
              (or_intror (or_intror eq_refl)))
    as (self' & _ & Hp & _ & _ & _ & _ & _ & Hret & _).
  destruct Hret as (m & Hcall & _); [left; discriminate|].
  exists self', m. split; assumption.
Defined.

Lemma resolution_frame_witness :
  PrecursorInformation.mz example_defaulted_link
  = PrecursorInformation.mz example_link
  /\ PrecursorInformation.defaulted example_defaulted_link = true.
Proof.
  destruct (resolution_frame
              averagine_neutral_mass averagine_mass_charge_ratio unit
              example_pick_peaks example_has_peak example_between
              example_deconvolute_peaks
              example_link example_defaulted_link true None None tt
              (PrecursorInformation.ReturnPair
                 (averagine_mass_charge_ratio
                    (PrecursorInformation.extracted_neutral_mass
                       example_defaulted_link) 2) false)
              eq_refl)
    as ((Hmz & _) & _ & _ & _ & Hd & _).
  split; assumption.
Defined.

Lemma rebind_after_pickle_witness :
  exists p',
    PrecursorInformation.loads (PrecursorInformation.dumps example_link) = Ok p'
    /\ PrecursorInformation.source p' = None
    /\ PrecursorInformation.bind_source p' example_source = example_link.
Proof.
  destruct (rebind_after_pickle example_link example_source eq_refl)
    as (p' & H1 & H2 & H3 & _).
  exists p'. repeat split; assumption.
Defined.

Lemma averagine_round_trip (m : Q) (c : Z) :
  c <> 0%Z ->
  averagine_mass_charge_ratio (averagine_neutral_mass m c) c == m.
Proof.
  intros Hc. unfold averagine_mass_charge_ratio, averagine_neutral_mass.
  assert (Hz : ~ inject_Z (Z.abs c) == 0).
  { change 0 with (inject_Z 0). rewrite inject_Z_injective. lia. }
  field. exact Hz.
Qed.

Lemma defaulted_equals_undefaulted_witness :
  PrecursorInformation.__eq__ averagine_mass_charge_ratio
    (PrecursorInformation.default averagine_neutral_mass example_link true)
    (Some example_link) = Ok true
  /\ PrecursorInformation.__eq__ averagine_mass_charge_ratio example_link
       (Some (PrecursorInformation.default averagine_neutral_mass
                example_link true)) = Ok true.
Proof.
  apply (defaulted_equals_undefaulted
           averagine_neutral_mass averagine_mass_charge_ratio
           example_link 2 true).
  - intros m. apply averagine_round_trip. discriminate.
  - reflexivity.
  - discriminate.
  - reflexivity.
Defined.

Lemma average_mz_spec_witness :
  exists v,
    EnvelopeStatistics.average_mz Qplus Qdiv example_envelope
    = EnvelopeStatistics.Returns v
    /\ v == 50025 # 100.
Proof.
  destruct (average_mz_spec Qplus Qdiv example_envelope)
    as (_ & _ & _ & _ & Hone).
  apply (Hone Qplus_0_l ltac:(intros x; field)
           (EnvelopeStatistics.mk (50025 # 100) 1000 12)).
  reflexivity.
Defined.

Lemma average_signal_to_noise_spec_witness :
  exists v,
    EnvelopeStatistics.average_signal_to_noise Qplus Qdiv example_envelope
    = EnvelopeStatistics.Returns v
    /\ v == 12.
Proof.
  destruct (average_signal_to_noise_spec Qplus Qdiv example_envelope)
    as (_ & _ & _ & _ & Hone).
  apply (Hone Qplus_0_l ltac:(intros x; field)
           (EnvelopeStatistics.mk (50025 # 100) 1000 12)).
  reflexivity.
Defined.

Lemma correct_mz_enforces_window_witness :
  exists self',
    PrecursorInformationMethods.correct_mz (Q * Q) example_pick_peaks
      example_nearest_peak example_between_bounds example_window_of
      example_window_is_empty example_spans fst snd
      example_bound_link (2 # 100000) true = Ok self'
    /\ (example_spans (500, 501) (PrecursorInformation.mz self') = true
        \/ example_between_bounds [FittedPeak.mk (5002505 # 10000) 1000] 500 501
           = []).
Proof.
  destruct (correct_mz_enforces_window (Q * Q) example_pick_peaks
              example_nearest_peak example_between_bounds example_window_of
              example_window_is_empty example_spans fst snd
              example_bound_link (2 # 100000)
              example_scan example_product
              [FittedPeak.mk (5002505 # 10000) 1000] (500, 501))
    as (self' & Hcall & Hin & _); try reflexivity.
  - intros p [<-|[]]. reflexivity.
  - exists self'. split; assumption.
Defined.

Lemma bunch_lookup_member_witness :
  ScanBunch.get_scan_by_id Scan.t
    (ScanBunch.__new__ Scan.t Scan.id (Some example_scan)
       [example_product; example_product'])
    "scan=3" = Ok example_product'.
Proof.
  apply (bunch_lookup_member Scan.t Scan.id (Some example_scan)
           [example_product; example_product'] example_product').
  - simpl. repeat constructor; simpl; intuition discriminate.
  - simpl. auto.
Defined.

Lemma bunch_pack_witness :
  exists packed,
    ScanBunch.pack Scan.t Scan.id example_pack
      (ScanBunch.__new__ Scan.t Scan.id (Some example_scan) [example_product])
    = Ok packed
    /\ ScanBunch.precursor Scan.t packed = Some (example_pack example_scan).
Proof.
  destruct (bunch_pack Scan.t Scan.id example_pack example_scan
              [example_product] (fun s => eq_refl))
    as (_ & packed & Hpack & Hprec & _).
  exists packed. split; assumption.
Defined.

Lemma base_peak_of_raw_arrays_witness :
  exists i,
    (i < 3)%nat
    /\ BasePeakMethods._guess example_raw_scan
       = Ok (BasePeakMethods.base_peak_t
               (nth i (RawDataArrays.mz example_arrays) 0)
               (nth i (RawDataArrays.intensity example_arrays) 0)).
Proof.
  destruct (base_peak_of_raw_arrays example_raw_scan example_arrays
              eq_refl eq_refl eq_refl)
    as (i & Hi & Hcall & _); [discriminate | reflexivity|].
  exists i. split; assumption.
Defined.

Lemma base_peak_of_empty_arrays_witness :
  BasePeakMethods._guess example_empty_raw_scan = Raise ValueError
  /\ TICMethods._guess example_empty_raw_scan = Ok 0.
Proof.
  apply (base_peak_of_empty_arrays example_empty_raw_scan example_empty_arrays);
    reflexivity.
Defined.

Lemma peak_sequence_fallback_witness :
  TICMethods._guess example_peak_list
  = Ok (total (map FittedPeak.intensity
                 [FittedPeak.mk 500 40; FittedPeak.mk 501 70])).
Proof.
  destruct (peak_sequence_fallback example_peak_list
              [FittedPeak.mk 500 40; FittedPeak.mk 501 70]
              eq_refl eq_refl eq_refl) as [H _];
    [discriminate | reflexivity | exact H].
Defined.

Lemma unclassifiable_scan_raises_witness :
  TICMethods._guess example_empty_list = Raise TypeError
  /\ BasePeakMethods._guess example_empty_list = Raise TypeError.
Proof.
  apply (unclassifiable_scan_raises example_empty_list);
    try reflexivity.
  right. left. reflexivity.
Defined.
